(** * go-api-basic: the handler package

    A shallow embedding of [handler/handler.go]: the middleware
    [LoggerHandlerChain], [JSONContentTypeHandler], [AccessTokenHandler], the
    envelope builder [NewStandardResponse] and the classifier [DecoderErr],
    together with the parts of [net/http], [strings], [context], [alice],
    [zerolog/hlog] and the [errs] and [auth] packages that they call.

    Go strings are byte strings and are modelled by [string]; a Go [map] is a
    [gmap]; a nilable [error] is an [option error]; the mutable objects the
    handlers share (the response writer, the logger behind the pointer kept in
    the request context) are threaded explicitly. *)

From Stdlib Require Import ZArith String Ascii List Bool Lia.
From stdpp Require Import base option gmap strings list.
Import ListNotations.

Local Open Scope string_scope.
Local Open Scope Z_scope.
Local Open Scope list_scope.

(** ** Package [strings] *)

Module strings.

(** [s[n:]] *)
Definition slice_from (n : nat) (s : string) : string :=
  String.substring n (String.length s - n) s.

(** [s[0:n]] *)
Definition slice_to (n : nat) (s : string) : string :=
  String.substring 0 n s.

(** [func HasPrefix(s, prefix string) bool
      { return len(s) >= len(prefix) && s[0:len(prefix)] == prefix }] *)
Definition HasPrefix (s prefix : string) : bool :=
  (String.length prefix <=? String.length s)%nat
  && String.eqb (slice_to (String.length prefix) s) prefix.

(** [func TrimPrefix(s, prefix string) string
      { if HasPrefix(s, prefix) { return s[len(prefix):] }; return s }] *)
Definition TrimPrefix (s prefix : string) : string :=
  if HasPrefix s prefix then slice_from (String.length prefix) s else s.

End strings.

(** ** Packages [net/textproto] and [net/http]: headers and response writers *)

Module http.

(** [type Header map[string][]string] *)
Abbreviation Header := (gmap string (list string)).

Definition isLower (c : ascii) : bool :=
  (97 <=? nat_of_ascii c)%nat && (nat_of_ascii c <=? 122)%nat.
Definition isUpper (c : ascii) : bool :=
  (65 <=? nat_of_ascii c)%nat && (nat_of_ascii c <=? 90)%nat.
Definition isDigit (c : ascii) : bool :=
  (48 <=? nat_of_ascii c)%nat && (nat_of_ascii c <=? 57)%nat.

(** The token bytes of RFC 7230, the only ones a canonicalised key holds. *)
Definition validHeaderFieldByte (c : ascii) : bool :=
  isLower c || isUpper c || isDigit c
  || existsb (Ascii.eqb c) (list_ascii_of_string "!#$%&'*+-.^_`|~").

Definition toUpper (c : ascii) : ascii :=
  if isLower c then ascii_of_nat (nat_of_ascii c - 32) else c.
Definition toLower (c : ascii) : ascii :=
  if isUpper c then ascii_of_nat (nat_of_ascii c + 32) else c.

(** First letter and every letter after a dash in upper case, the others in
    lower case. *)
Fixpoint canonicalise (upper : bool) (s : string) : string :=
  match s with
  | EmptyString => EmptyString
  | String c s' =>
      let c' := if upper then toUpper c else toLower c in
      String c' (canonicalise (Ascii.eqb c' "-") s')
  end.

(** [textproto.CanonicalMIMEHeaderKey]: a key with a byte that is no token
    byte is returned as it is. *)
Definition CanonicalMIMEHeaderKey (s : string) : string :=
  if forallb validHeaderFieldByte (list_ascii_of_string s)
  then canonicalise true s else s.

(** [h[key]], the nil slice when the key is absent *)
Definition values (h : Header) (key : string) : list string :=
  default [] (h !! key).

(** [func (h Header) Add(key, value string)]:
    [key = CanonicalMIMEHeaderKey(key); h[key] = append(h[key], value)] *)
Definition Add (key value : string) (h : Header) : Header :=
  let key := CanonicalMIMEHeaderKey key in
  <[key := values h key ++ [value]]> h.

(** [func (h Header) Set(key, value string)] *)
Definition Set_ (key value : string) (h : Header) : Header :=
  <[CanonicalMIMEHeaderKey key := [value]]> h.

(** [func (h Header) Get(key string) string]: the first value, or [""] *)
Definition Get (key : string) (h : Header) : string :=
  match values h (CanonicalMIMEHeaderKey key) with
  | v :: _ => v
  | [] => ""
  end.

Definition StatusOK : Z := 200.
Definition StatusBadRequest : Z := 400.
Definition StatusUnauthorized : Z := 401.
Definition StatusForbidden : Z := 403.
Definition StatusNotFound : Z := 404.
Definition StatusConflict : Z := 409.
Definition StatusInternalServerError : Z := 500.

(** [http.ResponseWriter] with the two implementations a request meets
    here: the writer the server (or [httptest]) supplies, and the wrapper
    that [hlog.AccessHandler] puts around it to observe status and size.
    [code = None] in the base writer: no status line written yet. *)
Inductive ResponseWriter : Type :=
| baseWriter (header : Header) (code : option Z) (body : string)
| basicWriter (inner : ResponseWriter) (wroteHeader : bool) (code : Z)
              (bytes : Z).

(** [w.Header()] *)
Fixpoint Header_ (w : ResponseWriter) : Header :=
  match w with
  | baseWriter h _ _ => h
  | basicWriter i _ _ _ => Header_ i
  end.

(** A mutation of the map [w.Header()] returns. *)
Fixpoint updHeader (f : Header -> Header) (w : ResponseWriter)
  : ResponseWriter :=
  match w with
  | baseWriter h c b => baseWriter (f h) c b
  | basicWriter i wh c n => basicWriter (updHeader f i) wh c n
  end.

(** [w.WriteHeader(code)]: only the first call counts. *)
Fixpoint WriteHeader (code : Z) (w : ResponseWriter) : ResponseWriter :=
  match w with
  | baseWriter h None b => baseWriter h (Some code) b
  | baseWriter h (Some c) b => baseWriter h (Some c) b
  | basicWriter i false _ n => basicWriter (WriteHeader code i) true code n
  | basicWriter i true c n => basicWriter i true c n
  end.

(** [w.Write(buf)]: writes the status line with 200 first when none was
    written. The wrapper's [maybeWriteHeader] records 200 and passes
    [WriteHeader(200)] on to the inner writer, which is what the inner
    [Write] does by itself. *)
Fixpoint Write (buf : string) (w : ResponseWriter) : ResponseWriter :=
  match w with
  | baseWriter h c b => baseWriter h (Some (default StatusOK c)) (b +:+ buf)
  | basicWriter i wh c n =>
      basicWriter (Write buf i) true (if wh then c else StatusOK)
                  (n + Z.of_nat (String.length buf))
  end.

(** What the client receives: status and body of the base writer. *)
Fixpoint Code (w : ResponseWriter) : option Z :=
  match w with
  | baseWriter _ c _ => c
  | basicWriter i _ _ _ => Code i
  end.

Fixpoint Body (w : ResponseWriter) : string :=
  match w with
  | baseWriter _ _ b => b
  | basicWriter i _ _ _ => Body i
  end.

(** A writer through which no status line went yet, at any layer. *)
Fixpoint pending (w : ResponseWriter) : bool :=
  match w with
  | baseWriter _ None _ => true
  | baseWriter _ (Some _) _ => false
  | basicWriter i wh _ _ => negb wh && pending i
  end.

(** [httptest.NewRecorder()] *)
Definition NewRecorder : ResponseWriter := baseWriter ∅ None "".

End http.

(** ** Package [net/url] *)

Record URL : Type := mkURL {
  u_Scheme : string;
  u_Host : string;
  u_Path : string;
  u_RawPath : string;
  u_RawQuery : string
}.

(** ** Go [error] values and package [errs] *)

(** Modelled from the spec: the kind tags of the repository's package
    [domain/errs], whose source lies outside the handler package. The
    taxonomy is unauthenticated, unauthorized, invalid-request, not-found,
    conflict and internal; [Internal] is the spec's "internal/unclassified"
    and is the kind of a classified error that was given no kind tag. *)
Inductive Kind : Type :=
| Internal
| Unauthenticated
| Unauthorized
| InvalidRequest
| NotFound
| Conflict.

(** The values of the interface type [error] that reach this package. The two
    sentinels of package [io] are single values, told apart from every other
    error by [==]; [errors_New] is [errors.New] of [github.com/pkg/errors];
    [json_SyntaxError] and [fmt_wrapError] stand for what a JSON decoder
    returns otherwise; [errs_Error] is a classified error: a kind tag and an
    optional wrapped cause, whose message is the cause's. A nil [error] is
    [None : option error]. *)
#[warnings="-register-all"]
Inductive error : Type :=
| io_EOF
| io_ErrUnexpectedEOF
| errors_New (msg : string)
| json_SyntaxError (msg : string) (offset : Z)
| fmt_wrapError (msg : string) (cause : error)
| errs_Error (kind : Kind) (err : option error).

(** [err.Error()] *)
Fixpoint Error_ (e : error) : string :=
  match e with
  | io_EOF => "EOF"
  | io_ErrUnexpectedEOF => "unexpected EOF"
  | errors_New m => m
  | json_SyntaxError m _ => m
  | fmt_wrapError m _ => m
  | errs_Error _ (Some c) => Error_ c
  | errs_Error _ None => ""
  end.

Module errs.

(** An argument of the variadic [errs.E]: this package passes kinds and
    errors. *)
Inductive Arg : Type :=
| ArgKind (k : Kind)
| ArgErr (e : error).

Definition setArg (acc : Kind * option error) (a : Arg)
  : Kind * option error :=
  match a with
  | ArgKind k => (k, snd acc)
  | ArgErr e => (fst acc, Some e)
  end.

(** Modelled from the spec: [errs.E] of package [domain/errs], the
    constructor of classified errors. Each argument fills the field of its
    type: a kind sets the kind tag, an error becomes the wrapped cause;
    without a kind argument the kind stays the default. *)
Definition E (args : list Arg) : error :=
  let r := fold_left setArg args (Internal, None) in
  errs_Error (fst r) (snd r).

(** The kind a mapper sees in an error: the tag of a classified error,
    internal/unclassified for anything else. *)
Definition KindOf (err : option error) : Kind :=
  match err with
  | Some (errs_Error k _) => k
  | _ => Internal
  end.

(** The lower-level cause a classified error wraps. *)
Definition Cause (err : error) : option error :=
  match err with
  | errs_Error _ c => c
  | _ => None
  end.

(** Modelled from the spec: the status code the mapper of package
    [domain/errs] gives each kind (section 4.7 of the spec). *)
Definition httpStatus (k : Kind) : Z :=
  match k with
  | Unauthenticated => http.StatusUnauthorized
  | Unauthorized => http.StatusForbidden
  | InvalidRequest => http.StatusBadRequest
  | NotFound => http.StatusNotFound
  | Conflict => http.StatusConflict
  | Internal => http.StatusInternalServerError
  end.

End errs.

(** ** Package [auth] *)

Module auth.

(** Modelled from the spec: the constant [auth.BearerTokenType] of package
    [domain/auth], the scheme tag [Bearer]; the requests of the tests carry
    [auth.BearerTokenType+" abc123def1"]. *)
Definition BearerTokenType : string := "Bearer".

(** Modelled from the spec: [auth.AccessToken] of package [domain/auth], a
    token-type tag plus the raw credential string. *)
Record AccessToken : Type := mkAccessToken {
  Token : string;
  TokenType : string
}.

End auth.

(** ** Package [zerolog]: loggers, fields and lines *)

Module zerolog.

(** [type Level int8] *)
Abbreviation Level := Z.
Definition DebugLevel : Level := 0.
Definition InfoLevel : Level := 1.
Definition WarnLevel : Level := 2.
Definition ErrorLevel : Level := 3.
Definition Disabled : Level := 7.

Inductive FieldVal : Type :=
| FStr (s : string)
| FInt (n : Z)
| FDur (d : Z)
| FStringer (u : URL)
| FErr (e : option error).

Abbreviation Field := (string * FieldVal)%type.

(** A logger: its minimum level and the fields every line of it starts
    with (the [context] byte slice). *)
Record Logger : Type := mkLogger {
  level : Level;
  context : list Field
}.

(** A line as written to the output: the logger's context fields, then the
    fields of the event. *)
Record Line : Type := mkLine {
  l_level : Level;
  l_fields : list Field;
  l_msg : string
}.

Definition disabledLogger : Logger := mkLogger Disabled [].

(** [func (l *Logger) should(lvl Level) bool], with the global level and
    the sampler at their defaults. *)
Definition should (l : Logger) (lvl : Level) : bool :=
  (level l <=? lvl) && negb (level l =? Disabled).

(** [c.Str(key, val)] and the like inside [UpdateContext]: the field is
    appended; nothing is deduplicated. *)
Definition with_field (f : Field) (l : Logger) : Logger :=
  mkLogger (level l) (context l ++ [f]).

(** The line [l.WithLevel(lvl).<fields>.Msg(msg)] writes, if any. *)
Definition event (l : Logger) (lvl : Level) (fields : list Field)
           (msg : string) : list Line :=
  if should l lvl then [mkLine lvl (context l ++ fields) msg] else [].

(** The last value a line gives a key, as a JSON reader sees it. *)
Definition field (key : string) (ln : Line) : option FieldVal :=
  snd <$> last (filter (fun f => fst f = key) (l_fields ln)).

End zerolog.

(** ** What the handlers take from outside *)

(** [type StandardResponse struct], the envelope of non-error response
    bodies; [Data] is an [interface{}]. *)
Record StandardResponse (Data : Type) : Type := mkStandardResponse {
  Path : string;
  RequestID : string;
  Data_ : Data
}.

Arguments mkStandardResponse {Data} _ _ _.
Arguments Path {Data} _.
Arguments RequestID {Data} _.
Arguments Data_ {Data} _.

(** The libraries behind the handlers, as far as the handlers do not depend
    on how they work: [xid.ID] with its [String] method and the identifiers
    [xid.New] returns one after the other; the payload type behind
    [interface{}]; [URL.EscapedPath]; the host [hlog.RemoteAddrHandler] reads
    off a remote address; the JSON encoders of the error body and of the
    envelope; and the state of whatever lies behind the terminal handler. *)
Class Externals : Type := {
  ID : Type;
  ID_String : ID -> string;
  xid_New : nat -> ID;
  Data : Type;
  EscapedPath : URL -> string;
  remoteHost : string -> option string;
  errorJSON : option error -> string;
  encodeJSON : StandardResponse Data -> string;
  World : Type
}.

(** ** The handlers *)

Section handler.

Context {ext : Externals}.

(** *** Package [context] and [net/http]: requests *)

(** [context.Context] as this package meets it. [WithValue] shadows an
    earlier binding of the same key and [Value] sees the latest only, so a
    context is its latest binding per key; the three keys are private types
    of [zerolog], [hlog] and [auth], each holding values of one type. The
    logger is kept by pointer: an index into the loggers of the [State]. *)
Record Context : Type := mkContext {
  ctx_logger : option nat;
  ctx_id : option ID;
  ctx_token : option auth.AccessToken
}.

Definition background : Context := mkContext None None None.

Record Request : Type := mkRequest {
  r_Method : string;
  r_URL : URL;
  r_Header : http.Header;
  r_RemoteAddr : string;
  r_ctx : Context
}.

(** [r.WithContext(ctx)]: a shallow copy of [r] with the context changed *)
Definition WithContext (r : Request) (ctx : Context) : Request :=
  mkRequest (r_Method r) (r_URL r) (r_Header r) (r_RemoteAddr r) ctx.

(** What handlers share besides the response writer: the loggers that
    contexts point to, the lines written to the log output, the number of
    identifiers drawn, the clock, and the world behind the terminal
    handler. *)
Record State : Type := mkState {
  loggers : list zerolog.Logger;
  output : list zerolog.Line;
  drawn : nat;
  now : Z;
  world : World
}.

Definition set_loggers (f : list zerolog.Logger -> list zerolog.Logger)
           (st : State) : State :=
  mkState (f (loggers st)) (output st) (drawn st) (now st) (world st).

Definition set_output (f : list zerolog.Line -> list zerolog.Line)
           (st : State) : State :=
  mkState (loggers st) (f (output st)) (drawn st) (now st) (world st).

Definition set_drawn (n : nat) (st : State) : State :=
  mkState (loggers st) (output st) n (now st) (world st).

Definition set_world (x : World) (st : State) : State :=
  mkState (loggers st) (output st) (drawn st) (now st) x.

(** [type Handler interface { ServeHTTP(ResponseWriter, *Request) }]: the
    writer and the shared state go in and come out. *)
Definition Handler : Type :=
  http.ResponseWriter -> Request -> State -> http.ResponseWriter * State.

(** *** Package [alice] *)

(** [type Constructor func(http.Handler) http.Handler] *)
Definition Constructor : Type := Handler -> Handler.

(** [type Chain struct { constructors []Constructor }] *)
Definition Chain : Type := list Constructor.

Definition alice_New (cs : list Constructor) : Chain := cs.

Definition Append (c : Chain) (cs : list Constructor) : Chain := c ++ cs.

(** [func (c Chain) Then(h http.Handler) http.Handler]: the constructors
    are applied from the last to the first, so the first is outermost. *)
Definition Then (c : Chain) (h : Handler) : Handler :=
  fold_left (fun h m => m h) (rev c) h.

(** *** Package [zerolog], the stateful part *)

(** [zerolog.Ctx(ctx)]: the pointer in the context, [None] for the disabled
    logger that stands in when there is none. *)
Definition zerolog_Ctx (ctx : Context) : option nat := ctx_logger ctx.

(** [*p] *)
Definition deref (st : State) (p : option nat) : zerolog.Logger :=
  match p with
  | Some i => default zerolog.disabledLogger (loggers st !! i)
  | None => zerolog.disabledLogger
  end.

(** [func (l *Logger) UpdateContext(update)]: the logger behind the pointer
    is changed in place; the disabled logger is left alone. *)
Definition UpdateContext (p : option nat) (f : zerolog.Field) (st : State)
  : State :=
  match p with
  | Some i => set_loggers (alter (zerolog.with_field f) i) st
  | None => st
  end.

(** An event of logger [l] sent to the output. *)
Definition log (l : zerolog.Logger) (lvl : zerolog.Level)
           (fields : list zerolog.Field) (msg : string) (st : State)
  : State :=
  set_output (fun o => o ++ zerolog.event l lvl fields msg) st.

(** [func (l Logger) WithContext(ctx)]: a new cell holds the logger and the
    context points to it, except that a disabled logger is not stored in a
    context that has none. *)
Definition Logger_WithContext (l : zerolog.Logger) (ctx : Context)
           (st : State) : Context * State :=
  match ctx_logger ctx with
  | None =>
      if zerolog.level l =? zerolog.Disabled then (ctx, st)
      else (mkContext (Some (length (loggers st))) (ctx_id ctx)
                      (ctx_token ctx),
            set_loggers (fun ls => ls ++ [l]) st)
  | Some _ =>
      (mkContext (Some (length (loggers st))) (ctx_id ctx) (ctx_token ctx),
       set_loggers (fun ls => ls ++ [l]) st)
  end.

(** *** Package [hlog] *)

(** [hlog.FromRequest(r)] *)
Definition hlog_FromRequest (r : Request) : option nat :=
  zerolog_Ctx (r_ctx r).

(** [hlog.IDFromRequest(r)]: the pair [(id, ok)] as an option *)
Definition hlog_IDFromRequest (r : Request) : option ID := ctx_id (r_ctx r).

(** [hlog.CtxWithID(ctx, id)] *)
Definition hlog_CtxWithID (ctx : Context) (id : ID) : Context :=
  mkContext (ctx_logger ctx) (Some id) (ctx_token ctx).

(** [hlog.NewHandler(log)]: a copy of the logger is put in the request's
    context. *)
Definition hlog_NewHandler (lg : zerolog.Logger) : Constructor :=
  fun next w r st =>
    let '(ctx, st) := Logger_WithContext lg (r_ctx r) st in
    next w (WithContext r ctx) st.

(** The writer behind the wrapper with the wrapper's [Status()] and
    [BytesWritten()]. *)
Definition unwrap (w : http.ResponseWriter) : http.ResponseWriter * Z * Z :=
  match w with
  | http.basicWriter i _ c n => (i, c, n)
  | http.baseWriter _ _ _ => (w, 0, 0)
  end.

(** [hlog.AccessHandler(f)]: the writer is wrapped, the rest of the chain
    runs, then [f] is called with the request as this handler received it,
    the status and size the wrapper saw and the time that went by. *)
Definition hlog_AccessHandler
           (f : Request -> Z -> Z -> Z -> State -> State) : Constructor :=
  fun next w r st =>
    let start := now st in
    let lw := http.basicWriter w false 0 0 in
    let '(lw, st) := next lw r st in
    let '(w, status, size) := unwrap lw in
    (w, f r status size (now st - start) st).

(** [log.UpdateContext(... c.Str(fieldKey, v) ...)] under a condition that
    gives [v]. *)
Definition updateIf (p : option nat) (fieldKey : string) (v : option string)
           (st : State) : State :=
  match v with
  | Some s => UpdateContext p (fieldKey, zerolog.FStr s) st
  | None => st
  end.

(** The handlers that add one field to the request's logger when the
    request has a value for it. *)
Definition fieldHandler (fieldKey : string) (value : Request -> option string)
  : Constructor :=
  fun next w r st =>
    let st := updateIf (zerolog_Ctx (r_ctx r)) fieldKey (value r) st in
    next w r st.

Definition nonEmpty (s : string) : option string :=
  if String.eqb s "" then None else Some s.

Definition hlog_RemoteAddrHandler (fieldKey : string) : Constructor :=
  fieldHandler fieldKey (fun r => remoteHost (r_RemoteAddr r)).

Definition hlog_UserAgentHandler (fieldKey : string) : Constructor :=
  fieldHandler fieldKey (fun r => nonEmpty (http.Get "User-Agent" (r_Header r))).

Definition hlog_RefererHandler (fieldKey : string) : Constructor :=
  fieldHandler fieldKey (fun r => nonEmpty (http.Get "Referer" (r_Header r))).

(** [hlog.RequestIDHandler(fieldKey, headerName)]: the identifier of the
    context is used, or a new one is drawn and stored in the context; it is
    added to the logger as [fieldKey] and set as the response header
    [headerName]. *)
Definition hlog_RequestIDHandler (fieldKey headerName : string)
  : Constructor :=
  fun next w r st =>
    let ctx := r_ctx r in
    let '(id, ctx, r, st) :=
      match hlog_IDFromRequest r with
      | Some id => (id, ctx, r, st)
      | None =>
          let id := xid_New (drawn st) in
          let ctx := hlog_CtxWithID ctx id in
          (id, ctx, WithContext r ctx, set_drawn (S (drawn st)) st)
      end in
    let st :=
      if String.eqb fieldKey "" then st
      else UpdateContext (zerolog_Ctx ctx)
                         (fieldKey, zerolog.FStr (ID_String id)) st in
    let w :=
      if String.eqb headerName "" then w
      else http.updHeader (http.Set_ headerName (ID_String id)) w in
    next w r st.

(** *** Packages [errs] and [auth], the parts that touch a request *)

(** Modelled from the spec: [errs.HTTPErrorResponse] of package
    [domain/errs], the mapper from a classified error to a response. The
    failure is logged through the request's logger before the response is
    written; the status is the one declared for the kind; an unauthenticated
    or unauthorized error gets no body, every other kind a JSON error
    body. *)
Definition errs_HTTPErrorResponse (w : http.ResponseWriter)
           (lgr : zerolog.Logger) (err : option error) (st : State)
  : http.ResponseWriter * State :=
  let k := errs.KindOf err in
  let st := log lgr zerolog.ErrorLevel [("error", zerolog.FErr err)] "" st in
  match k with
  | Unauthenticated | Unauthorized =>
      (http.WriteHeader (errs.httpStatus k) w, st)
  | _ =>
      (http.Write (errorJSON err) (http.WriteHeader (errs.httpStatus k) w),
       st)
  end.

(** Modelled from the spec: [auth.SetAccessToken2Context] of package
    [domain/auth] stores the token string plus its scheme tag in the request
    context. *)
Definition auth_SetAccessToken2Context (ctx : Context)
           (token tokenType : string) : Context :=
  mkContext (ctx_logger ctx) (ctx_id ctx)
            (Some (auth.mkAccessToken token tokenType)).

(** *** Package [handler] *)

(** The function literal handed to [hlog.AccessHandler]: one line at level
    info from the logger of the request. *)
Definition accessLog (r : Request) (status size duration : Z) (st : State)
  : State :=
  log (deref st (hlog_FromRequest r)) zerolog.InfoLevel
      [("method", zerolog.FStr (r_Method r));
       ("url", zerolog.FStringer (r_URL r));
       ("status", zerolog.FInt status);
       ("size", zerolog.FInt size);
       ("duration", zerolog.FDur duration)]
      "" st.

Definition LoggerHandlerChain (logger : zerolog.Logger) (c : Chain)
  : Chain :=
  let c := Append c [hlog_NewHandler logger] in
  let c :=
    Append
      (Append
         (Append
            (Append (Append c [hlog_AccessHandler accessLog])
                    [hlog_RemoteAddrHandler "remote_ip"])
            [hlog_UserAgentHandler "user_agent"])
         [hlog_RefererHandler "referer"])
      [hlog_RequestIDHandler "request_id" "Request-Id"] in
  c.

Definition JSONContentTypeHandler (h : Handler) : Handler :=
  fun w r st =>
    let w := http.updHeader (http.Add "Content-Type" "application/json") w in
    h w r st.

Definition AccessTokenHandler (h : Handler) : Handler :=
  fun w r st =>
    let logger := deref st (hlog_FromRequest r) in
    let ctx := r_ctx r in
    let token :=
      match r_Header r !! "Authorization" with
      | Some (v :: _) => strings.TrimPrefix v (auth.BearerTokenType +:+ " ")
      | _ => ""
      end in
    if String.eqb token "" then
      errs_HTTPErrorResponse w logger
        (Some (errs.E [errs.ArgKind Unauthenticated;
                       errs.ArgErr
                         (errors_New "Unauthenticated - empty Bearer token")]))
        st
    else
      let ctx := auth_SetAccessToken2Context ctx token auth.BearerTokenType in
      h w (WithContext r ctx) st.

(** The result pair, a [*StandardResponse] and an [error], with [None] for
    [nil]. *)
Definition NewStandardResponse (r : Request) (d : Data)
  : option (StandardResponse Data) * option error :=
  let path := EscapedPath (r_URL r) in
  match hlog_IDFromRequest r with
  | None =>
      (None,
       Some (errs.E [errs.ArgErr
               (errors_New "request ID not properly set to request context")]))
  | Some id => (Some (mkStandardResponse path (ID_String id) d), None)
  end.

Definition DecoderErr (err : option error) : option error :=
  match err with
  | Some io_EOF =>
      Some (errs.E [errs.ArgKind InvalidRequest;
                    errs.ArgErr (errors_New "Request Body cannot be empty")])
  | Some io_ErrUnexpectedEOF =>
      Some (errs.E [errs.ArgKind InvalidRequest;
                    errs.ArgErr (errors_New "Malformed JSON")])
  | Some e => Some (errs.E [errs.ArgErr e])
  | None => None
  end.

(** The token [AccessTokenHandler] reads off the request, by itself. *)
Definition bearerToken (r : Request) : string :=
  match r_Header r !! "Authorization" with
  | Some (v :: _) => strings.TrimPrefix v (auth.BearerTokenType +:+ " ")
  | _ => ""
  end.

(** The branch [AccessTokenHandler] takes on an empty token, by itself: the
    unauthenticated error goes to the mapper with the request's logger. *)
Definition rejectEmptyToken (w : http.ResponseWriter) (r : Request)
           (st : State) : http.ResponseWriter * State :=
  errs_HTTPErrorResponse w (deref st (hlog_FromRequest r))
    (Some (errs.E [errs.ArgKind Unauthenticated;
                   errs.ArgErr
                     (errors_New "Unauthenticated - empty Bearer token")]))
    st.

(** The request [AccessTokenHandler] hands on when the token is [token]. *)
Definition withAccessToken (r : Request) (token : string) : Request :=
  WithContext r
    (auth_SetAccessToken2Context (r_ctx r) token auth.BearerTokenType).

(** A request that differs from [r] in its header only. *)
Definition withHeader (r : Request) (h : http.Header) : Request :=
  mkRequest (r_Method r) (r_URL r) h (r_RemoteAddr r) (r_ctx r).

(** *** A terminal handler *)

(** Modelled from the spec: the end of a resource handler (the movie
    handlers, defined in other files of the package): on success the envelope
    is built for the payload and JSON-encoded into the response, on failure
    the error goes to the mapper. *)
Definition envelopeHandler (d : Data) : Handler :=
  fun w r st =>
    match NewStandardResponse r d with
    | (Some sr, None) => (http.Write (encodeJSON sr) w, st)
    | (_, err) =>
        errs_HTTPErrorResponse w (deref st (hlog_FromRequest r)) err st
    end.

(** The chain the package's tests serve requests with. *)
Definition apiChain (logger : zerolog.Logger) : Chain :=
  Append (Append (LoggerHandlerChain logger (alice_New []))
                 [AccessTokenHandler])
         [JSONContentTypeHandler].

(** The state in which the end of the chain starts: the logger of the
    request has got its fields, the identifier is counted. *)
Definition prepared (r : Request) (st : State) : State :=
  let p := ctx_logger (r_ctx r) in
  let id := default (xid_New (drawn st)) (hlog_IDFromRequest r) in
  let st1 := updateIf p "remote_ip" (remoteHost (r_RemoteAddr r)) st in
  let st2 :=
    updateIf p "user_agent" (nonEmpty (http.Get "User-Agent" (r_Header r)))
             st1 in
  let st3 :=
    updateIf p "referer" (nonEmpty (http.Get "Referer" (r_Header r))) st2 in
  UpdateContext p ("request_id", zerolog.FStr (ID_String id))
    (set_drawn
       (if hlog_IDFromRequest r is Some _ then drawn st else S (drawn st))
       st3).

(** *** The chain from the inside *)

(** What [hlog.AccessHandler] does once the next handler has returned, with
    the function literal of [LoggerHandlerChain] as its callback: the writer
    is unwrapped and the access line is written for the request [r] the
    handler received at time [start]. *)
Definition afterAccess (r : Request) (start : Z)
           (res : http.ResponseWriter * State) : http.ResponseWriter * State :=
  let '(lw, st) := res in
  let '(w, status, size) := unwrap lw in
  (w, accessLog r status size (now st - start) st).

(** The fields [updateIf] adds to a logger. *)
Definition optField (key : string) (v : option string) : list zerolog.Field :=
  match v with
  | Some s => [(key, zerolog.FStr s)]
  | None => []
  end.

(** *** The middleware of the tests *)

(** [requestIDMiddleware] of the handler tests: the identifier of the
    request is read and its string kept in the variable [requestID] of the
    test, then the next handler is called. [setRequestID] is the assignment
    to that variable and [fatal] is [t.Fatal], both acting on the world of
    the test; after [t.Fatal] the next handler is not called. *)
Definition requestIDMiddleware (setRequestID : string -> World -> World)
           (fatal : string -> World -> World) : Constructor :=
  fun h w r st =>
    match hlog_IDFromRequest r with
    | None =>
        (w, set_world (fatal "Request ID not set to request context"
                             (world st)) st)
    | Some rID =>
        h w r (set_world (setRequestID (ID_String rID) (world st)) st)
    end.

(** The handler chain the tests set up:
    [LoggerHandlerChain(lgr, ac).Append(AccessTokenHandler).
     Append(JSONContentTypeHandler).Append(requestIDMiddleware)]. *)
Definition testChain (lgr : zerolog.Logger)
           (setRequestID : string -> World -> World)
           (fatal : string -> World -> World) : Chain :=
  Append
    (Append
       (Append (LoggerHandlerChain lgr (alice_New [])) [AccessTokenHandler])
       [JSONContentTypeHandler])
    [requestIDMiddleware setRequestID fatal].

End handler.

(** ** A concrete environment, for running the handlers *)

(** Identifiers are strings that print as themselves, the path is escaped to
    itself, and the world behind the terminal handler is the list of access
    tokens that handler has found in the requests it served. *)
Definition exampleExt : Externals := {|
  ID := string;
  ID_String := fun s => s;
  xid_New := fun n => String (ascii_of_nat (97 + n)) "0";
  Data := string;
  EscapedPath := u_Path;
  remoteHost := fun s => if String.eqb s "" then None else Some s;
  errorJSON := fun e => "{}";
  encodeJSON := fun sr => Path sr +:+ " " +:+ RequestID sr +:+ " " +:+ Data_ sr;
  World := list (option auth.AccessToken)
|}.

(** A terminal handler that only records the access token of the request. *)
Definition probe : @Handler exampleExt :=
  fun w r st =>
    (w, @set_world exampleExt (world st ++ [ctx_token (r_ctx r)]) st).

Definition exampleRequest (h : http.Header) : @Request exampleExt :=
  mkRequest "POST" (mkURL "http" "example.com" "/api/v1/movies" "" "") h
            "192.0.2.1:1234" background.

Definition exampleState : @State exampleExt :=
  @mkState exampleExt [] [] 0%nat 0 [].

(** The same request after an identifier was stored in its context. *)
Definition exampleRequestWithID (h : http.Header) (id : string)
  : @Request exampleExt :=
  WithContext (exampleRequest h) (@hlog_CtxWithID exampleExt background id).

Definition exampleLogger : zerolog.Logger :=
  zerolog.mkLogger zerolog.InfoLevel [].

(** A second environment, for the tests' middleware: the world is the
    variable [requestID] of the test and the messages of [t.Fatal]. *)
Definition testExt : Externals := {|
  ID := string;
  ID_String := fun s => s;
  xid_New := fun n => String (ascii_of_nat (97 + n)) "0";
  Data := string;
  EscapedPath := u_Path;
  remoteHost := fun s => if String.eqb s "" then None else Some s;
  errorJSON := fun e => "{}";
  encodeJSON := fun sr => Path sr +:+ " " +:+ RequestID sr +:+ " " +:+ Data_ sr;
  World := (string * list string)%type
|}.

(** * Properties *)

(** Facts about slicing used by every statement on the bearer prefix. *)

Lemma append_String (c : ascii) (a b : string) :
  String c a +:+ b = String c (a +:+ b).
Proof. reflexivity. Qed.

Lemma append_nil_l (b : string) : "" +:+ b = b.
Proof. reflexivity. Qed.

Lemma substring_all (s : string) : String.substring 0 (String.length s) s = s.
Proof. induction s as [|c s IH]; simpl; [done | by rewrite IH]. Qed.

Lemma slice_to_app (p t : string) :
  strings.slice_to (String.length p) (p +:+ t) = p.
Proof.
  unfold strings.slice_to.
  induction p as [|c p IH]; rewrite ?append_String, ?append_nil_l; simpl.
  - by destruct t.
  - by rewrite IH.
Qed.

Lemma slice_from_app (p t : string) :
  strings.slice_from (String.length p) (p +:+ t) = t.
Proof.
  unfold strings.slice_from.
  induction p as [|c p IH]; rewrite ?append_String, ?append_nil_l; simpl.
  - rewrite Nat.sub_0_r. apply substring_all.
  - exact IH.
Qed.

Lemma length_app_string (p t : string) :
  String.length (p +:+ t) = (String.length p + String.length t)%nat.
Proof.
  induction p as [|c p IH]; rewrite ?append_String, ?append_nil_l; simpl;
    [done | by rewrite IH].
Qed.

Lemma HasPrefix_app (p t : string) : strings.HasPrefix (p +:+ t) p = true.
Proof.
  unfold strings.HasPrefix.
  rewrite slice_to_app, String.eqb_refl, length_app_string.
  rewrite andb_true_r. apply Nat.leb_le. lia.
Qed.

Lemma slice_to_split (n : nat) (s : string) :
  (n <= String.length s)%nat ->
  s = strings.slice_to n s +:+ strings.slice_from n s.
Proof.
  unfold strings.slice_to, strings.slice_from.
  revert s; induction n as [|n IH]; intros s Hn.
  - rewrite Nat.sub_0_r, substring_all. by destruct s.
  - destruct s as [|c s]; simpl in *; [lia |].
    rewrite append_String. f_equal. apply IH. lia.
Qed.

(** [HasPrefix s p] holds exactly when [s] is [p] followed by something. *)
Lemma HasPrefix_spec (s p : string) :
  strings.HasPrefix s p = true <-> exists t, s = p +:+ t.
Proof.
  split.
  - unfold strings.HasPrefix. intros H.
    apply andb_true_iff in H as [Hlen Heq].
    apply Nat.leb_le in Hlen. apply String.eqb_eq in Heq.
    exists (strings.slice_from (String.length p) s).
    rewrite <- Heq at 1. by apply slice_to_split.
  - intros [t ->]. apply HasPrefix_app.
Qed.

Lemma TrimPrefix_app (p t : string) : strings.TrimPrefix (p +:+ t) p = t.
Proof.
  unfold strings.TrimPrefix. rewrite HasPrefix_app. apply slice_from_app.
Qed.

Lemma TrimPrefix_no_prefix (s p : string) :
  strings.HasPrefix s p = false -> strings.TrimPrefix s p = s.
Proof. unfold strings.TrimPrefix. by intros ->. Qed.

(** The prefix [AccessTokenHandler] strips. *)
Lemma bearer_prefix : auth.BearerTokenType +:+ " " = "Bearer ".
Proof. reflexivity. Qed.

(** ** Response writers *)

Lemma Header_updHeader (f : http.Header -> http.Header) (w : http.ResponseWriter) :
  http.Header_ (http.updHeader f w) = f (http.Header_ w).
Proof. induction w as [h c b | i IH wh c n]; simpl; [done | exact IH]. Qed.

Lemma Code_updHeader (f : http.Header -> http.Header) (w : http.ResponseWriter) :
  http.Code (http.updHeader f w) = http.Code w.
Proof. induction w as [h c b | i IH wh c n]; simpl; [done | exact IH]. Qed.

Lemma Body_updHeader (f : http.Header -> http.Header) (w : http.ResponseWriter) :
  http.Body (http.updHeader f w) = http.Body w.
Proof. induction w as [h c b | i IH wh c n]; simpl; [done | exact IH]. Qed.

Lemma Header_WriteHeader (code : Z) (w : http.ResponseWriter) :
  http.Header_ (http.WriteHeader code w) = http.Header_ w.
Proof.
  induction w as [h [c|] b | i IH [] c n]; simpl; auto.
Qed.

Lemma Body_WriteHeader (code : Z) (w : http.ResponseWriter) :
  http.Body (http.WriteHeader code w) = http.Body w.
Proof.
  induction w as [h [c|] b | i IH [] c n]; simpl; auto.
Qed.

Lemma Header_Write (buf : string) (w : http.ResponseWriter) :
  http.Header_ (http.Write buf w) = http.Header_ w.
Proof. induction w as [h c b | i IH wh c n]; simpl; [done | exact IH]. Qed.

Lemma Body_Write (buf : string) (w : http.ResponseWriter) :
  http.Body (http.Write buf w) = http.Body w +:+ buf.
Proof. induction w as [h c b | i IH wh c n]; simpl; [done | exact IH]. Qed.

Lemma Code_WriteHeader_pending (code : Z) (w : http.ResponseWriter) :
  http.pending w = true -> http.Code (http.WriteHeader code w) = Some code.
Proof.
  induction w as [h [c|] b | i IH [] c n]; simpl; auto; done.
Qed.

Lemma canonical_Content_Type :
  http.CanonicalMIMEHeaderKey "Content-Type" = "Content-Type".
Proof. reflexivity. Qed.

Lemma canonical_Request_Id :
  http.CanonicalMIMEHeaderKey "Request-Id" = "Request-Id".
Proof. reflexivity. Qed.

(** ** The classifier of decode errors *)

(** C3: [DecoderErr] is the reference map. A nil error gives nil; [io.EOF]
    gives a classified error of kind invalid-request with the message
    "Request Body cannot be empty"; [io.ErrUnexpectedEOF] gives one of kind
    invalid-request with the message "Malformed JSON"; every other error [e]
    gives a classified error that wraps [e] as its cause and carries no kind
    of its own choosing: the kind is the default one. *)
Theorem DecoderErr_reference :
  DecoderErr None = None
  /\ (exists c,
        DecoderErr (Some io_EOF) = Some c
        /\ errs.KindOf (Some c) = InvalidRequest
        /\ Error_ c = "Request Body cannot be empty")
  /\ (exists c,
        DecoderErr (Some io_ErrUnexpectedEOF) = Some c
        /\ errs.KindOf (Some c) = InvalidRequest
        /\ Error_ c = "Malformed JSON")
  /\ (forall e : error,
        e <> io_EOF -> e <> io_ErrUnexpectedEOF ->
        exists c,
          DecoderErr (Some e) = Some c
          /\ (exists k o, c = errs_Error k o)
          /\ errs.Cause c = Some e
          /\ errs.KindOf (Some c) = Internal
          /\ Error_ c = Error_ e).
Proof.
  split; [reflexivity |].
  split; [eexists; repeat split; reflexivity |].
  split; [eexists; repeat split; reflexivity |].
  intros e Heof Hueof.
  destruct e; try congruence;
    (eexists; split; [reflexivity |]; repeat split; eauto).
Qed.

Section facts.

Context {ext : Externals}.

(** ** The envelope builder *)

(** C5: [NewStandardResponse] returns an error exactly when the request's
    context holds no correlation identifier; the error is then a classified
    error of kind internal, which the mapper answers with status 500, and no
    envelope is returned. *)
Theorem NewStandardResponse_error_iff (r : Request) (d : Data) :
  ((NewStandardResponse r d).2 <> None <-> hlog_IDFromRequest r = None)
  /\ (hlog_IDFromRequest r = None ->
      (NewStandardResponse r d).1 = None
      /\ (exists o, (NewStandardResponse r d).2 = Some (errs_Error Internal o))
      /\ errs.httpStatus (errs.KindOf (NewStandardResponse r d).2)
         = http.StatusInternalServerError).
Proof.
  unfold NewStandardResponse.
  destruct (hlog_IDFromRequest r) as [id|]; simpl.
  - split; [split; intros H; congruence | intros H; congruence].
  - split; [split; [done | discriminate] |].
    intros _. repeat split. by eexists.
Qed.

(** C6: when the request's context holds a correlation identifier,
    [NewStandardResponse] succeeds, and the envelope has the escaped path of
    the request's URL as [path], the identifier of the context as
    [request_id] and the payload given as [data]. *)
Theorem NewStandardResponse_envelope (r : Request) (d : Data) (id : ID) :
  hlog_IDFromRequest r = Some id ->
  exists sr,
    NewStandardResponse r d = (Some sr, None)
    /\ Path sr = EscapedPath (r_URL r)
    /\ RequestID sr = ID_String id
    /\ Data_ sr = d.
Proof.
  intros Hid. unfold NewStandardResponse. rewrite Hid.
  eexists. split; [reflexivity |]. by repeat split.
Qed.

(** ** The content-type middleware *)

(** C7: [JSONContentTypeHandler] hands the request and the shared state on
    to the next handler as they are, with a writer that differs from the one
    it got in one respect: [application/json] is appended to the values of
    the header [Content-Type]. Every other header, the status and the body
    are as before, and whatever the next handler returns is returned. *)
Theorem JSONContentTypeHandler_frame
        (h : Handler) (w : http.ResponseWriter) (r : Request) (st : State) :
  let w1 := http.updHeader (http.Add "Content-Type" "application/json") w in
  JSONContentTypeHandler h w r st = h w1 r st
  /\ http.Header_ w1 !! "Content-Type"
     = Some (http.values (http.Header_ w) "Content-Type" ++ ["application/json"])
  /\ (forall k, k <> "Content-Type" -> http.Header_ w1 !! k = http.Header_ w !! k)
  /\ http.Code w1 = http.Code w
  /\ http.Body w1 = http.Body w.
Proof.
  intros w1. subst w1.
  rewrite Header_updHeader, Code_updHeader, Body_updHeader.
  unfold http.Add. rewrite canonical_Content_Type.
  repeat split.
  - apply lookup_insert_eq.
  - intros k Hk. by apply lookup_insert_ne.
Qed.

(** ** The access-token middleware *)

(** What the handler does, case by case on the first value of the header. *)
Lemma AccessTokenHandler_cases
      (h : Handler) (w : http.ResponseWriter) (r : Request) (st : State) :
  AccessTokenHandler h w r st =
  match r_Header r !! "Authorization" with
  | Some (v :: _) =>
      if String.eqb (strings.TrimPrefix v "Bearer ") ""
      then rejectEmptyToken w r st
      else h w (withAccessToken r (strings.TrimPrefix v "Bearer ")) st
  | _ => rejectEmptyToken w r st
  end.
Proof.
  unfold AccessTokenHandler, rejectEmptyToken, withAccessToken.
  rewrite bearer_prefix.
  destruct (r_Header r !! "Authorization") as [[|v rest]|]; reflexivity.
Qed.

Lemma rejectEmptyToken_writer
      (w : http.ResponseWriter) (r : Request) (st : State) :
  (rejectEmptyToken w r st).1 = http.WriteHeader http.StatusUnauthorized w.
Proof. reflexivity. Qed.

(** C1: a request without an [Authorization] header, or whose first value
    is empty once the prefix [Bearer ] is stripped, is answered by
    [WriteHeader(401)] and nothing else on the writer: the body is what it
    was (empty, when nothing was written before), the status is 401 when no
    status line went out before, and the result does not depend on the
    wrapped handler, whose world is left as it was. *)
Theorem AccessTokenHandler_unauthenticated
        (h : Handler) (w : http.ResponseWriter) (r : Request) (st : State) :
  (r_Header r !! "Authorization" = None
   \/ r_Header r !! "Authorization" = Some []
   \/ exists v rest,
        r_Header r !! "Authorization" = Some (v :: rest)
        /\ strings.TrimPrefix v "Bearer " = "") ->
  (AccessTokenHandler h w r st).1 = http.WriteHeader http.StatusUnauthorized w
  /\ http.Body (AccessTokenHandler h w r st).1 = http.Body w
  /\ (http.pending w = true ->
      http.Code (AccessTokenHandler h w r st).1 = Some 401)
  /\ world (AccessTokenHandler h w r st).2 = world st
  /\ (forall h' : Handler,
        AccessTokenHandler h' w r st = AccessTokenHandler h w r st).
Proof.
  intros Hhdr.
  assert (Hrej : forall g : Handler,
             AccessTokenHandler g w r st = rejectEmptyToken w r st).
  { intros g. rewrite AccessTokenHandler_cases.
    destruct Hhdr as [-> | [-> | (v & rest & -> & ->)]]; reflexivity. }
  rewrite (Hrej h), rejectEmptyToken_writer.
  split; [reflexivity |].
  split; [apply Body_WriteHeader |].
  split; [apply Code_WriteHeader_pending |].
  split; [reflexivity |].
  intros h'. apply Hrej.
Qed.

Lemma eqb_empty_false (t : string) : t <> "" -> String.eqb t "" = false.
Proof. intros H. by apply String.eqb_neq. Qed.

(** C2, as the code has it: the scheme is not checked. When the first value
    of the header is not empty and does not begin with [Bearer ], the whole
    value is stored in the request context as the access token, tagged with
    the bearer type, and the wrapped handler is called with that request. *)
Theorem AccessTokenHandler_scheme_not_checked
        (h : Handler) (w : http.ResponseWriter) (r : Request) (st : State)
        (v : string) (rest : list string) :
  r_Header r !! "Authorization" = Some (v :: rest) ->
  strings.HasPrefix v "Bearer " = false ->
  v <> "" ->
  AccessTokenHandler h w r st = h w (withAccessToken r v) st
  /\ ctx_token (r_ctx (withAccessToken r v))
     = Some (auth.mkAccessToken v "Bearer").
Proof.
  intros Hhdr Hpre Hne. split; [| reflexivity].
  rewrite AccessTokenHandler_cases, Hhdr.
  rewrite (TrimPrefix_no_prefix _ _ Hpre).
  by rewrite (eqb_empty_false _ Hne).
Qed.

(** C4: when the first value of the header leaves a non-empty token, the
    wrapped handler is called with a request whose context holds that token:
    the value without its prefix [Bearer ] when it begins with it (the prefix
    is removed once, whatever follows it), the value as it is when it is not
    [Bearer ] followed by something, wherever else [Bearer ] may occur in
    it. *)
Theorem AccessTokenHandler_token_stored
        (h : Handler) (w : http.ResponseWriter) (r : Request) (st : State)
        (v : string) (rest : list string) :
  r_Header r !! "Authorization" = Some (v :: rest) ->
  strings.TrimPrefix v "Bearer " <> "" ->
  AccessTokenHandler h w r st
  = h w (withAccessToken r (strings.TrimPrefix v "Bearer ")) st
  /\ ctx_token (r_ctx (withAccessToken r (strings.TrimPrefix v "Bearer ")))
     = Some (auth.mkAccessToken (strings.TrimPrefix v "Bearer ") "Bearer")
  /\ (forall t, v = "Bearer " +:+ t -> strings.TrimPrefix v "Bearer " = t)
  /\ ((forall t, v <> "Bearer " +:+ t) ->
      strings.TrimPrefix v "Bearer " = v).
Proof.
  intros Hhdr Hne.
  split.
  { rewrite AccessTokenHandler_cases, Hhdr.
    by rewrite (eqb_empty_false _ Hne). }
  split; [reflexivity |].
  split.
  - intros t ->. apply TrimPrefix_app.
  - intros Hno. apply TrimPrefix_no_prefix.
    destruct (strings.HasPrefix v "Bearer ") eqn:Hpre; [| reflexivity].
    apply HasPrefix_spec in Hpre as [t Ht]. by destruct (Hno t).
Qed.

(** C9: either the wrapped handler plays no part in the result, or the
    result is that of the wrapped handler on a request whose context holds an
    access token with a non-empty token string and the bearer type. *)
Theorem AccessTokenHandler_invariant
        (w : http.ResponseWriter) (r : Request) (st : State) :
  (forall h h' : Handler,
      AccessTokenHandler h w r st = AccessTokenHandler h' w r st)
  \/ (exists t : string,
        t <> ""
        /\ ctx_token (r_ctx (withAccessToken r t))
           = Some (auth.mkAccessToken t auth.BearerTokenType)
        /\ forall h : Handler,
            AccessTokenHandler h w r st = h w (withAccessToken r t) st).
Proof.
  destruct (r_Header r !! "Authorization") as [[|v rest]|] eqn:Hhdr.
  - left. intros h h'. by rewrite !AccessTokenHandler_cases, Hhdr.
  - destruct (String.eqb (strings.TrimPrefix v "Bearer ") "") eqn:Htok.
    + left. intros h h'. by rewrite !AccessTokenHandler_cases, Hhdr, Htok.
    + right. exists (strings.TrimPrefix v "Bearer ").
      split; [by apply String.eqb_neq |].
      split; [reflexivity |].
      intros h. by rewrite AccessTokenHandler_cases, Hhdr, Htok.
  - left. intros h h'. by rewrite !AccessTokenHandler_cases, Hhdr.
Qed.

(** C10: only the first value of the header counts. A request and the same
    request with other values after the first one are both rejected, with
    the same response, or both handed on with the same token. *)
Theorem AccessTokenHandler_first_value_only
        (h : Handler) (w : http.ResponseWriter) (r : Request) (st : State)
        (v : string) (rest rest' : list string) :
  r_Header r !! "Authorization" = Some (v :: rest) ->
  let r' := withHeader r (<["Authorization" := v :: rest']> (r_Header r)) in
  let t := strings.TrimPrefix v "Bearer " in
  (t = ""
   /\ AccessTokenHandler h w r st = rejectEmptyToken w r st
   /\ AccessTokenHandler h w r' st = rejectEmptyToken w r st)
  \/ (t <> ""
      /\ AccessTokenHandler h w r st = h w (withAccessToken r t) st
      /\ AccessTokenHandler h w r' st = h w (withAccessToken r' t) st).
Proof.
  intros Hhdr r' t.
  assert (Hhdr' : r_Header r' !! "Authorization" = Some (v :: rest'))
    by apply lookup_insert_eq.
  rewrite !AccessTokenHandler_cases, Hhdr, Hhdr'. fold t.
  destruct (String.eqb t "") eqn:Htok.
  - left. apply String.eqb_eq in Htok. by repeat split.
  - right. apply String.eqb_neq in Htok. by repeat split.
Qed.

End facts.

(** ** The logging chain *)

Section chain.

Context {ext : Externals}.

(** The chain of the tests, written out from the outermost handler in. *)
Lemma apiChain_Then (lg : zerolog.Logger) (t : Handler) :
  Then (apiChain lg) t =
  hlog_NewHandler lg
    (hlog_AccessHandler accessLog
       (hlog_RemoteAddrHandler "remote_ip"
          (hlog_UserAgentHandler "user_agent"
             (hlog_RefererHandler "referer"
                (hlog_RequestIDHandler "request_id" "Request-Id"
                   (AccessTokenHandler (JSONContentTypeHandler t))))))).
Proof. reflexivity. Qed.

Lemma bearerToken_cases (r : Request) :
  bearerToken r =
  match r_Header r !! "Authorization" with
  | Some (v :: _) => strings.TrimPrefix v "Bearer "
  | _ => ""
  end.
Proof. reflexivity. Qed.

Lemma AccessTokenHandler_bearerToken
      (h : Handler) (w : http.ResponseWriter) (r : Request) (st : State) :
  AccessTokenHandler h w r st =
  if String.eqb (bearerToken r) ""
  then rejectEmptyToken w r st
  else h w (withAccessToken r (bearerToken r)) st.
Proof.
  rewrite AccessTokenHandler_cases, bearerToken_cases.
  destruct (r_Header r !! "Authorization") as [[|v rest]|]; reflexivity.
Qed.

(** What the end of the chain does with a request that has an identifier. *)
Lemma envelope_tail (d : Data) (w : http.ResponseWriter) (r : Request)
      (st : State) (id : ID) :
  hlog_IDFromRequest r = Some id ->
  AccessTokenHandler (JSONContentTypeHandler (envelopeHandler d)) w r st =
  if String.eqb (bearerToken r) ""
  then rejectEmptyToken w r st
  else (http.Write
          (encodeJSON
             (mkStandardResponse (EscapedPath (r_URL r)) (ID_String id) d))
          (http.updHeader (http.Add "Content-Type" "application/json") w),
        st).
Proof.
  intros Hid. rewrite AccessTokenHandler_bearerToken.
  destruct (String.eqb (bearerToken r) ""); [reflexivity |].
  unfold JSONContentTypeHandler, envelopeHandler, NewStandardResponse.
  unfold hlog_IDFromRequest in *. simpl. by rewrite Hid.
Qed.

(** *** Fields of a line *)

Lemma field_of_context (key : string) (v : zerolog.FieldVal)
      (lvl : zerolog.Level) (pre ev : list zerolog.Field) (msg : string) :
  filter (fun f : zerolog.Field => f.1 = key) ev = [] ->
  zerolog.field key (zerolog.mkLine lvl ((pre ++ [(key, v)]) ++ ev) msg)
  = Some v.
Proof.
  intros Hev. unfold zerolog.field. cbn [zerolog.l_fields].
  rewrite !filter_app, Hev, app_nil_r.
  rewrite filter_cons_True by done.
  change (filter (fun f : zerolog.Field => f.1 = key) []) with (@nil zerolog.Field).
  by rewrite last_snoc.
Qed.

(** *** The logger behind the pointer *)

Lemma updateIf_frame (p : option nat) (k : string) (v : option string)
      (st : State) :
  output (updateIf p k v st) = output st
  /\ drawn (updateIf p k v st) = drawn st
  /\ now (updateIf p k v st) = now st
  /\ world (updateIf p k v st) = world st.
Proof. destruct v, p; by repeat split. Qed.

Lemma UpdateContext_cell (i : nat) (f : zerolog.Field) (st : State)
      (ls : list zerolog.Logger) (l : zerolog.Logger) :
  loggers st = ls ++ [l] -> length ls = i ->
  loggers (UpdateContext (Some i) f st) = ls ++ [zerolog.with_field f l].
Proof.
  intros Hls <-. simpl. rewrite Hls.
  replace (length ls) with (length ls + 0)%nat by lia.
  by rewrite alter_app_r.
Qed.

Lemma updateIf_cell (i : nat) (k : string) (v : option string) (st : State)
      (ls : list zerolog.Logger) (l : zerolog.Logger) :
  loggers st = ls ++ [l] -> length ls = i ->
  exists l',
    loggers (updateIf (Some i) k v st) = ls ++ [l']
    /\ zerolog.level l' = zerolog.level l.
Proof.
  intros Hls Hi. destruct v as [s|]; simpl.
  - eexists. split; [by apply UpdateContext_cell | reflexivity].
  - by exists l.
Qed.

Lemma deref_cell (i : nat) (st : State) (ls : list zerolog.Logger)
      (l : zerolog.Logger) :
  loggers st = ls ++ [l] -> length ls = i -> deref st (Some i) = l.
Proof.
  intros Hls <-. unfold deref. rewrite Hls.
  by rewrite list_lookup_middle.
Qed.

Lemma WithContext_id (r : Request) (id : ID) :
  hlog_IDFromRequest r = Some id ->
  WithContext r (hlog_CtxWithID (r_ctx r) id) = r.
Proof.
  destruct r as [m u h a [lp oid tok]]. unfold hlog_IDFromRequest. simpl.
  by intros ->.
Qed.

Lemma set_drawn_id (st : State) : set_drawn (drawn st) st = st.
Proof. by destruct st. Qed.

(** [hlog.RequestIDHandler] in one step: the identifier is the one of the
    context or the next one drawn. *)
Lemma RequestIDHandler_run
      (next : Handler) (w : http.ResponseWriter) (r : Request) (st : State) :
  hlog_RequestIDHandler "request_id" "Request-Id" next w r st =
  let id := default (xid_New (drawn st)) (hlog_IDFromRequest r) in
  next (http.updHeader (http.Set_ "Request-Id" (ID_String id)) w)
       (WithContext r (hlog_CtxWithID (r_ctx r) id))
       (UpdateContext (ctx_logger (r_ctx r))
          ("request_id", zerolog.FStr (ID_String id))
          (set_drawn
             (if hlog_IDFromRequest r is Some _ then drawn st
              else S (drawn st)) st)).
Proof.
  unfold hlog_RequestIDHandler.
  destruct (hlog_IDFromRequest r) as [id|] eqn:Hid; simpl.
  - by rewrite (WithContext_id _ _ Hid), set_drawn_id.
  - reflexivity.
Qed.

Lemma tail_normal (d : Data) (w : http.ResponseWriter) (r : Request)
      (st : State) :
  let p := ctx_logger (r_ctx r) in
  let id := default (xid_New (drawn st)) (hlog_IDFromRequest r) in
  let w1 := http.updHeader (http.Set_ "Request-Id" (ID_String id)) w in
  let st5 := prepared r st in
  let json :=
    encodeJSON (mkStandardResponse (EscapedPath (r_URL r)) (ID_String id) d) in
  hlog_AccessHandler accessLog
    (hlog_RemoteAddrHandler "remote_ip"
       (hlog_UserAgentHandler "user_agent"
          (hlog_RefererHandler "referer"
             (hlog_RequestIDHandler "request_id" "Request-Id"
                (AccessTokenHandler
                   (JSONContentTypeHandler (envelopeHandler d)))))))
    w r st =
  if String.eqb (bearerToken r) "" then
    (http.WriteHeader http.StatusUnauthorized w1,
     accessLog r http.StatusUnauthorized 0 (now st5 - now st)
       (rejectEmptyToken w1 r st5).2)
  else
    (http.Write json
       (http.updHeader (http.Add "Content-Type" "application/json") w1),
     accessLog r http.StatusOK (Z.of_nat (String.length json))
               (now st5 - now st) st5).
Proof.
  intros p id w1 st5 json.
  unfold hlog_AccessHandler, hlog_RemoteAddrHandler, hlog_UserAgentHandler,
    hlog_RefererHandler, fieldHandler.
  rewrite RequestIDHandler_run.
  unfold zerolog_Ctx. fold p.
  set (st3 := updateIf p "referer" _ _).
  assert (Hd : drawn st3 = drawn st).
  { unfold st3. by rewrite !(proj1 (proj2 (updateIf_frame _ _ _ _))). }
  rewrite Hd. cbv zeta. fold id.
  rewrite (envelope_tail d _ _ _ id) by reflexivity.
  change (bearerToken (WithContext r (hlog_CtxWithID (r_ctx r) id)))
    with (bearerToken r).
  destruct (String.eqb (bearerToken r) ""); reflexivity.
Qed.

Lemma prepared_frame (r : Request) (st : State) :
  output (prepared r st) = output st
  /\ now (prepared r st) = now st
  /\ world (prepared r st) = world st
  /\ drawn (prepared r st)
     = (if hlog_IDFromRequest r is Some _ then drawn st else S (drawn st)).
Proof.
  unfold prepared.
  destruct (ctx_logger (r_ctx r)) as [i|]; simpl;
    destruct (remoteHost (r_RemoteAddr r)),
             (nonEmpty (http.Get "User-Agent" (r_Header r))),
             (nonEmpty (http.Get "Referer" (r_Header r)));
    by repeat split.
Qed.

(** After the preparation the logger of the request ends with the
    identifier as its field [request_id]. *)
Lemma prepared_cell (r : Request) (st : State) (i : nat)
      (ls : list zerolog.Logger) (l : zerolog.Logger) :
  ctx_logger (r_ctx r) = Some i ->
  loggers st = ls ++ [l] -> length ls = i ->
  exists pre,
    deref (prepared r st) (Some i)
    = zerolog.mkLogger
        (zerolog.level l)
        (pre ++ [("request_id",
                  zerolog.FStr
                    (ID_String (default (xid_New (drawn st))
                                        (hlog_IDFromRequest r))))]).
Proof.
  intros Hp Hls Hi. unfold prepared. rewrite Hp.
  destruct (updateIf_cell i "remote_ip" (remoteHost (r_RemoteAddr r)) st
                          ls l Hls Hi) as (l1 & Hl1 & Hlev1).
  destruct (updateIf_cell i "user_agent"
              (nonEmpty (http.Get "User-Agent" (r_Header r))) _ ls l1 Hl1 Hi)
    as (l2 & Hl2 & Hlev2).
  destruct (updateIf_cell i "referer"
              (nonEmpty (http.Get "Referer" (r_Header r))) _ ls l2 Hl2 Hi)
    as (l3 & Hl3 & Hlev3).
  exists (zerolog.context l3).
  erewrite deref_cell; [| | exact Hi].
  2:{ apply UpdateContext_cell; [exact Hl3 | exact Hi]. }
  unfold zerolog.with_field. congruence.
Qed.

Lemma WithContext_same (r : Request) : WithContext r (r_ctx r) = r.
Proof. by destruct r. Qed.

Lemma Logger_WithContext_cases (lg : zerolog.Logger) (ctx : Context)
      (st : State) :
  (Logger_WithContext lg ctx st = (ctx, st)
   /\ ctx_logger ctx = None
   /\ zerolog.level lg = zerolog.Disabled)
  \/ Logger_WithContext lg ctx st
     = (mkContext (Some (length (loggers st))) (ctx_id ctx) (ctx_token ctx),
        set_loggers (fun ls => ls ++ [lg]) st).
Proof.
  unfold Logger_WithContext.
  destruct (ctx_logger ctx) as [i|] eqn:Hp; [by right |].
  destruct (zerolog.level lg =? zerolog.Disabled) eqn:Hlev; [| by right].
  left. apply Z.eqb_eq in Hlev. by repeat split.
Qed.

Lemma should_Disabled (l : zerolog.Logger) (lvl : zerolog.Level) :
  zerolog.level l = zerolog.Disabled -> zerolog.should l lvl = false.
Proof.
  intros H. unfold zerolog.should. rewrite H. simpl.
  apply andb_false_r.
Qed.

Lemma field_of_event (key : string) (v : zerolog.FieldVal)
      (lvl : zerolog.Level) (ctx ev : list zerolog.Field) (msg : string) :
  last (filter (fun f : zerolog.Field => f.1 = key) ev) = Some (key, v) ->
  zerolog.field key (zerolog.mkLine lvl (ctx ++ ev) msg) = Some v.
Proof.
  intros Hev. unfold zerolog.field. cbn [zerolog.l_fields].
  by rewrite filter_app, last_app, Hev.
Qed.

Lemma event_request_id (lq : zerolog.Logger) (lvl : zerolog.Level)
      (ev : list zerolog.Field) (msg : string) (v : zerolog.FieldVal) :
  (zerolog.level lq = zerolog.Disabled
   \/ exists pre, zerolog.context lq = pre ++ [("request_id", v)]) ->
  filter (fun f : zerolog.Field => f.1 = "request_id") ev = [] ->
  Forall (fun ln => zerolog.field "request_id" ln = Some v)
         (zerolog.event lq lvl ev msg).
Proof.
  intros Hlq Hev. unfold zerolog.event.
  destruct Hlq as [Hdis | [pre Hpre]].
  - by rewrite (should_Disabled _ _ Hdis).
  - destruct (zerolog.should lq lvl); [| done].
    apply Forall_cons; split; [| done].
    rewrite Hpre. by apply field_of_context.
Qed.

(** The fields of the access line. *)
Lemma accessLog_output (r : Request) (status size duration : Z) (st : State) :
  output (accessLog r status size duration st) =
  output st
  ++ zerolog.event (deref st (ctx_logger (r_ctx r))) zerolog.InfoLevel
       [("method", zerolog.FStr (r_Method r));
        ("url", zerolog.FStringer (r_URL r));
        ("status", zerolog.FInt status);
        ("size", zerolog.FInt size);
        ("duration", zerolog.FDur duration)] "".
Proof. reflexivity. Qed.

Lemma rejectEmptyToken_output (w : http.ResponseWriter) (r : Request)
      (st : State) :
  output (rejectEmptyToken w r st).2 =
  output st
  ++ zerolog.event (deref st (ctx_logger (r_ctx r))) zerolog.ErrorLevel
       [("error",
         zerolog.FErr
           (Some (errs_Error Unauthenticated
                    (Some (errors_New
                             "Unauthenticated - empty Bearer token")))))] "".
Proof. reflexivity. Qed.

Lemma Request_Id_set (v : string) (h : http.Header) :
  http.Set_ "Request-Id" v h !! "Request-Id" = Some [v].
Proof. unfold http.Set_. rewrite canonical_Request_Id. apply lookup_insert_eq. Qed.

Lemma Request_Id_kept (h : http.Header) :
  http.Add "Content-Type" "application/json" h !! "Request-Id"
  = h !! "Request-Id".
Proof.
  unfold http.Add. rewrite canonical_Content_Type.
  by apply lookup_insert_ne.
Qed.

(** The chain behind [hlog.NewHandler], for a request whose logger, once
    prepared, is [lq]. *)
Lemma tail_facts (d : Data) (w : http.ResponseWriter) (r : Request)
      (st : State) (lq : zerolog.Logger) :
  let id := default (xid_New (drawn st)) (hlog_IDFromRequest r) in
  let res :=
    hlog_AccessHandler accessLog
      (hlog_RemoteAddrHandler "remote_ip"
         (hlog_UserAgentHandler "user_agent"
            (hlog_RefererHandler "referer"
               (hlog_RequestIDHandler "request_id" "Request-Id"
                  (AccessTokenHandler
                     (JSONContentTypeHandler (envelopeHandler d)))))))
      w r st in
  deref (prepared r st) (ctx_logger (r_ctx r)) = lq ->
  (zerolog.level lq = zerolog.Disabled
   \/ exists pre,
        zerolog.context lq
        = pre ++ [("request_id", zerolog.FStr (ID_String id))]) ->
  drawn res.2
  = (if hlog_IDFromRequest r is Some _ then drawn st else S (drawn st))
  /\ http.Header_ res.1 !! "Request-Id" = Some [ID_String id]
  /\ (exists lines,
        output res.2 = output st ++ lines
        /\ Forall (fun ln => zerolog.field "request_id" ln
                             = Some (zerolog.FStr (ID_String id))) lines
        /\ (zerolog.should lq zerolog.InfoLevel = true ->
            exists acc,
              last lines = Some acc
              /\ zerolog.l_level acc = zerolog.InfoLevel
              /\ zerolog.field "method" acc
                 = Some (zerolog.FStr (r_Method r))))
  /\ (if String.eqb (bearerToken r) "" then http.Body res.1 = http.Body w
      else http.Body res.1
           = http.Body w
             +:+ encodeJSON
                   (mkStandardResponse (EscapedPath (r_URL r)) (ID_String id)
                                       d)).
Proof.
  intros id res Hlq Hctx. subst res. rewrite tail_normal. fold id.
  destruct (prepared_frame r st) as (Hout & _ & _ & Hdrawn).
  destruct (String.eqb (bearerToken r) ""); cbn [fst snd].
  - split; [exact Hdrawn |].
    split; [by rewrite Header_WriteHeader, Header_updHeader, Request_Id_set |].
    split; [| by rewrite Body_WriteHeader, Body_updHeader].
    rewrite accessLog_output, rejectEmptyToken_output, Hout.
    change (deref (rejectEmptyToken _ r (prepared r st)).2
                  (ctx_logger (r_ctx r)))
      with (deref (prepared r st) (ctx_logger (r_ctx r))).
    rewrite Hlq, <- app_assoc.
    eexists. split; [reflexivity |]. split.
    + apply Forall_app; split; by apply event_request_id.
    + intros Hinfo. unfold zerolog.event at 2. rewrite Hinfo.
      eexists. rewrite last_snoc. split; [reflexivity |].
      split; [reflexivity |]. by apply field_of_event.
  - split; [exact Hdrawn |].
    split.
    { by rewrite Header_Write, !Header_updHeader, Request_Id_kept,
         Request_Id_set. }
    split; [| by rewrite Body_Write, !Body_updHeader].
    rewrite accessLog_output, Hout, Hlq.
    eexists. split; [reflexivity |]. split.
    + by apply event_request_id.
    + intros Hinfo. unfold zerolog.event. rewrite Hinfo.
      eexists. split; [reflexivity |].
      split; [reflexivity |]. by apply field_of_event.
Qed.

(** C8: one identifier per request, seen alike by everyone. Through the
    chain of the tests, ending in a handler that writes the envelope, the
    identifier is the one the request's context came with or else the next
    one drawn, and it is drawn at most once; the response header
    [Request-Id] holds exactly its string; every line the request adds to the
    log output, the access line included, has that string as its field
    [request_id]; and when the request passes the token gate the body is the
    encoded envelope whose [request_id] is that string (when it does not, no
    body is written). With a logger enabled at level info the last line added
    is the access line of the request. *)
Theorem request_id_consistent
        (lg : zerolog.Logger) (d : Data) (w : http.ResponseWriter)
        (r : Request) (st : State) :
  let res := Then (apiChain lg) (envelopeHandler d) w r st in
  let id := default (xid_New (drawn st)) (hlog_IDFromRequest r) in
  drawn res.2
  = (if hlog_IDFromRequest r is Some _ then drawn st else S (drawn st))
  /\ http.Header_ res.1 !! "Request-Id" = Some [ID_String id]
  /\ (exists lines,
        output res.2 = output st ++ lines
        /\ Forall (fun ln => zerolog.field "request_id" ln
                             = Some (zerolog.FStr (ID_String id))) lines
        /\ (zerolog.should lg zerolog.InfoLevel = true ->
            exists acc,
              last lines = Some acc
              /\ zerolog.l_level acc = zerolog.InfoLevel
              /\ zerolog.field "method" acc
                 = Some (zerolog.FStr (r_Method r))))
  /\ (if String.eqb (bearerToken r) "" then http.Body res.1 = http.Body w
      else http.Body res.1
           = http.Body w
             +:+ encodeJSON
                   (mkStandardResponse (EscapedPath (r_URL r)) (ID_String id)
                                       d)).
Proof.
  intros res id. subst res.
  rewrite apiChain_Then. unfold hlog_NewHandler.
  destruct (Logger_WithContext_cases lg (r_ctx r) st)
    as [(-> & Hp & Hlev) | ->].
  - rewrite WithContext_same.
    destruct (tail_facts d w r st zerolog.disabledLogger)
      as (Hdrawn & Hhdr & (lines & Hout & Hall & _) & Hbody).
    { by rewrite Hp. }
    { by left. }
    split; [exact Hdrawn |]. split; [exact Hhdr |]. split; [| exact Hbody].
    exists lines. split; [exact Hout |]. split; [exact Hall |].
    intros Hinfo. by rewrite (should_Disabled _ _ Hlev) in Hinfo.
  - set (r0 := WithContext r _). set (st0 := set_loggers _ st).
    destruct (prepared_cell r0 st0 (length (loggers st)) (loggers st) lg)
      as [pre Hcell]; [reflexivity | reflexivity | reflexivity |].
    destruct (tail_facts d w r0 st0 _ Hcell)
      as (Hdrawn & Hhdr & (lines & Hout & Hall & Hlast) & Hbody).
    { right. by exists pre. }
    split; [exact Hdrawn |]. split; [exact Hhdr |]. split; [| exact Hbody].
    exists lines. split; [exact Hout |]. split; [exact Hall |].
    exact Hlast.
Qed.

End chain.

(** * Further properties of the package *)

Section more.

Context {ext : Externals}.

(** ** Chains *)

Lemma Then_app (c1 c2 : Chain) (h : Handler) :
  Then (c1 ++ c2) h = Then c1 (Then c2 h).
Proof.
  unfold Then. by rewrite rev_app_distr, fold_left_app.
Qed.

(** X1: [LoggerHandlerChain] extends the chain it is given at the inner end.
    The six logging handlers come after the constructors of [c], so the
    handler built from the result is the handler [c] builds around the one
    the logging handlers build. *)
Theorem LoggerHandlerChain_extends
        (lg : zerolog.Logger) (c : Chain) (h : Handler) :
  LoggerHandlerChain lg c = c ++ LoggerHandlerChain lg (alice_New [])
  /\ length (LoggerHandlerChain lg c) = (length c + 6)%nat
  /\ Then (LoggerHandlerChain lg c) h
     = Then c (Then (LoggerHandlerChain lg (alice_New [])) h).
Proof.
  assert (Hc : LoggerHandlerChain lg c
               = c ++ LoggerHandlerChain lg (alice_New [])).
  { unfold LoggerHandlerChain, Append, alice_New.
    by rewrite <- !app_assoc. }
  split; [exact Hc |].
  split.
  - rewrite Hc, length_app. reflexivity.
  - by rewrite Hc, Then_app.
Qed.

(** The logging chain by itself, around any handler. *)
Lemma LoggerHandlerChain_run (lg : zerolog.Logger) (next : Handler)
      (w : http.ResponseWriter) (r : Request) (st : State) :
  let cs := Logger_WithContext lg (r_ctx r) st in
  let r0 := WithContext r cs.1 in
  let id := default (xid_New (drawn st)) (hlog_IDFromRequest r) in
  Then (LoggerHandlerChain lg (alice_New [])) next w r st =
  afterAccess r0 (now st)
    (next (http.basicWriter
             (http.updHeader (http.Set_ "Request-Id" (ID_String id)) w)
             false 0 0)
          (WithContext r0 (hlog_CtxWithID (r_ctx r0) id))
          (prepared r0 cs.2)).
Proof.
  intros cs r0 id. subst r0 cs.
  change (Then (LoggerHandlerChain lg (alice_New [])) next)
    with (hlog_NewHandler lg
            (hlog_AccessHandler accessLog
               (hlog_RemoteAddrHandler "remote_ip"
                  (hlog_UserAgentHandler "user_agent"
                     (hlog_RefererHandler "referer"
                        (hlog_RequestIDHandler "request_id" "Request-Id"
                           next)))))).
  unfold hlog_NewHandler.
  pose proof (Logger_WithContext_cases lg (r_ctx r) st) as Hcases.
  destruct (Logger_WithContext lg (r_ctx r) st) as [ctx0 st0].
  cbn [fst snd].
  assert (Hcs : now st0 = now st /\ drawn st0 = drawn st
                /\ ctx_id ctx0 = ctx_id (r_ctx r)).
  { destruct Hcases as [(Heq & _) | Heq]; by inversion Heq. }
  destruct Hcs as (Hnow & Hdrawn & Hid). clear Hcases.
  set (r0 := WithContext r ctx0).
  unfold hlog_AccessHandler, hlog_RemoteAddrHandler, hlog_UserAgentHandler,
    hlog_RefererHandler, fieldHandler.
  rewrite RequestIDHandler_run.
  unfold zerolog_Ctx, afterAccess, prepared, hlog_IDFromRequest.
  change (ctx_id (r_ctx r0)) with (ctx_id ctx0).
  rewrite !(proj1 (proj2 (updateIf_frame _ _ _ _))).
  rewrite Hid, Hdrawn, Hnow. reflexivity.
Qed.

Lemma Logger_WithContext_frame (lg : zerolog.Logger) (ctx : Context)
      (st : State) :
  output (Logger_WithContext lg ctx st).2 = output st
  /\ world (Logger_WithContext lg ctx st).2 = world st
  /\ ctx_id (Logger_WithContext lg ctx st).1 = ctx_id ctx
  /\ ctx_token (Logger_WithContext lg ctx st).1 = ctx_token ctx.
Proof.
  by destruct (Logger_WithContext_cases lg ctx st) as [(-> & _) | ->].
Qed.

(** X2: every handler behind the logging chain is called with a request
    whose context holds the correlation identifier (the one the request came
    with, or else the next one drawn) and with a writer whose header
    [Request-Id] is set to it. So [NewStandardResponse] succeeds on that
    request, whatever the payload; headers of the request, body and status of
    the writer, log output and world are still as the chain found them. *)
Theorem LoggerHandlerChain_provides_id
        (lg : zerolog.Logger) (w : http.ResponseWriter) (r : Request)
        (st : State) :
  let id := default (xid_New (drawn st)) (hlog_IDFromRequest r) in
  exists (w' : http.ResponseWriter) (r' r0 : Request) (st' : State),
    (forall next : Handler,
        Then (LoggerHandlerChain lg (alice_New [])) next w r st
        = afterAccess r0 (now st) (next w' r' st'))
    /\ hlog_IDFromRequest r' = Some id
    /\ http.Header_ w' !! "Request-Id" = Some [ID_String id]
    /\ (forall d : Data,
          NewStandardResponse r' d
          = (Some (mkStandardResponse (EscapedPath (r_URL r)) (ID_String id)
                                      d), None))
    /\ r_Header r' = r_Header r
    /\ http.Body w' = http.Body w
    /\ http.Code w' = http.Code w
    /\ output st' = output st
    /\ world st' = world st.
Proof.
  intros id.
  eexists _, _, _, _.
  split; [intros next; apply LoggerHandlerChain_run |].
  destruct (Logger_WithContext_frame lg (r_ctx r) st) as (Hout & Hworld & _).
  destruct (prepared_frame
              (WithContext r (Logger_WithContext lg (r_ctx r) st).1)
              (Logger_WithContext lg (r_ctx r) st).2)
    as (Hout' & _ & Hworld' & _).
  split; [reflexivity |].
  split; [cbn [http.Header_]; by rewrite Header_updHeader, Request_Id_set |].
  split; [reflexivity |].
  split; [reflexivity |].
  split; [cbn [http.Body]; apply Body_updHeader |].
  split; [cbn [http.Code]; apply Code_updHeader |].
  split; congruence.
Qed.

(** ** The logger of the request *)

Lemma with_no_field (l : zerolog.Logger) :
  zerolog.mkLogger (zerolog.level l) (zerolog.context l ++ []) = l.
Proof. destruct l. simpl. by rewrite app_nil_r. Qed.

Lemma updateIf_cell_fields (i : nat) (k : string) (v : option string)
      (st : State) (ls : list zerolog.Logger) (l : zerolog.Logger) :
  loggers st = ls ++ [l] -> length ls = i ->
  loggers (updateIf (Some i) k v st)
  = ls ++ [zerolog.mkLogger (zerolog.level l)
                            (zerolog.context l ++ optField k v)].
Proof.
  intros Hls Hi. destruct v as [s|]; simpl.
  - by apply UpdateContext_cell.
  - by rewrite with_no_field.
Qed.

Lemma prepared_cell_fields (r : Request) (st : State) (i : nat)
      (ls : list zerolog.Logger) (l : zerolog.Logger) :
  ctx_logger (r_ctx r) = Some i ->
  loggers st = ls ++ [l] -> length ls = i ->
  deref (prepared r st) (Some i)
  = zerolog.mkLogger
      (zerolog.level l)
      (zerolog.context l
       ++ optField "remote_ip" (remoteHost (r_RemoteAddr r))
       ++ optField "user_agent" (nonEmpty (http.Get "User-Agent" (r_Header r)))
       ++ optField "referer" (nonEmpty (http.Get "Referer" (r_Header r)))
       ++ [("request_id",
            zerolog.FStr
              (ID_String (default (xid_New (drawn st))
                                  (hlog_IDFromRequest r))))]).
Proof.
  intros Hp Hls Hi. unfold prepared. rewrite Hp.
  pose proof (updateIf_cell_fields i "remote_ip"
                (remoteHost (r_RemoteAddr r)) st ls l Hls Hi) as H1.
  pose proof (updateIf_cell_fields i "user_agent"
                (nonEmpty (http.Get "User-Agent" (r_Header r))) _ ls _ H1 Hi)
    as H2.
  pose proof (updateIf_cell_fields i "referer"
                (nonEmpty (http.Get "Referer" (r_Header r))) _ ls _ H2 Hi)
    as H3.
  erewrite deref_cell; [| | exact Hi].
  2:{ apply UpdateContext_cell; [exact H3 | exact Hi]. }
  unfold zerolog.with_field. cbn [zerolog.level zerolog.context].
  by rewrite <- !app_assoc.
Qed.

(** X3: the logger a handler behind the logging chain finds in its request
    is the template logger with these fields added at the end, in this
    order: [remote_ip], [user_agent] and [referer], each only when the
    request has a value for it, and [request_id] always. This holds whenever
    a logger is stored at all: the template is not disabled, or the request
    came with a logger in its context. *)
Theorem LoggerHandlerChain_logger_fields
        (lg : zerolog.Logger) (w : http.ResponseWriter) (r : Request)
        (st : State) :
  ctx_logger (r_ctx r) <> None \/ zerolog.level lg <> zerolog.Disabled ->
  let id := default (xid_New (drawn st)) (hlog_IDFromRequest r) in
  exists (w' : http.ResponseWriter) (r' r0 : Request) (st' : State),
    (forall next : Handler,
        Then (LoggerHandlerChain lg (alice_New [])) next w r st
        = afterAccess r0 (now st) (next w' r' st'))
    /\ deref st' (hlog_FromRequest r')
       = zerolog.mkLogger
           (zerolog.level lg)
           (zerolog.context lg
            ++ optField "remote_ip" (remoteHost (r_RemoteAddr r))
            ++ optField "user_agent"
                 (nonEmpty (http.Get "User-Agent" (r_Header r)))
            ++ optField "referer" (nonEmpty (http.Get "Referer" (r_Header r)))
            ++ [("request_id", zerolog.FStr (ID_String id))]).
Proof.
  intros Hstored id.
  eexists _, _, _, _.
  split; [intros next; apply LoggerHandlerChain_run |].
  assert (Hcs : Logger_WithContext lg (r_ctx r) st
                = (mkContext (Some (length (loggers st))) (ctx_id (r_ctx r))
                             (ctx_token (r_ctx r)),
                   set_loggers (fun ls => ls ++ [lg]) st)).
  { destruct (Logger_WithContext_cases lg (r_ctx r) st)
      as [(_ & Hp & Hlev) | Heq]; [| exact Heq].
    by destruct Hstored. }
  rewrite Hcs. cbn [fst snd].
  set (r0 := WithContext r _). set (st0 := set_loggers _ st).
  etransitivity.
  - apply (prepared_cell_fields r0 st0 (length (loggers st)) (loggers st)
                                lg); reflexivity.
  - reflexivity.
Qed.

(** ** The access line and the response *)





(** ** The chain of the tests *)

Lemma testChain_Then (lg : zerolog.Logger)
      (setRequestID fatal : string -> World -> World) (t : Handler) :
  Then (testChain lg setRequestID fatal) t =
  Then (LoggerHandlerChain lg (alice_New []))
       (AccessTokenHandler
          (JSONContentTypeHandler (requestIDMiddleware setRequestID fatal t))).
Proof. reflexivity. Qed.

(** X5: the identifier the tests compare with. In the chain the tests set
    up, around the envelope handler, a request that passes the token gate
    reaches [requestIDMiddleware] with an identifier in its context, so
    [t.Fatal] is never called; the string the middleware keeps in
    [requestID] is the [request_id] of the envelope in the body and the
    value of the response header [Request-Id]. A request stopped at the gate
    leaves the test's world as it was. *)
Theorem requestIDMiddleware_records_body_id
        (lg : zerolog.Logger) (setRequestID fatal : string -> World -> World)
        (d : Data) (w : http.ResponseWriter) (r : Request) (st : State) :
  let res := Then (testChain lg setRequestID fatal) (envelopeHandler d) w r st in
  let id := default (xid_New (drawn st)) (hlog_IDFromRequest r) in
  if String.eqb (bearerToken r) "" then world res.2 = world st
  else
    world res.2 = setRequestID (ID_String id) (world st)
    /\ http.Body res.1
       = http.Body w
         +:+ encodeJSON
               (mkStandardResponse (EscapedPath (r_URL r)) (ID_String id) d)
    /\ http.Header_ res.1 !! "Request-Id" = Some [ID_String id].
Proof.
  intros res id. subst res.
  rewrite testChain_Then, LoggerHandlerChain_run.
  destruct (Logger_WithContext_frame lg (r_ctx r) st) as (_ & Hworld & _).
  set (cs := Logger_WithContext lg (r_ctx r) st) in *.
  set (r0 := WithContext r cs.1).
  destruct (prepared_frame r0 cs.2) as (_ & _ & Hworld' & _).
  rewrite AccessTokenHandler_bearerToken.
  change (bearerToken (WithContext r0 _)) with (bearerToken r).
  fold id.
  destruct (String.eqb (bearerToken r) "").
  - cbn. congruence.
  - unfold JSONContentTypeHandler, requestIDMiddleware, envelopeHandler,
      NewStandardResponse.
    cbn. rewrite Hworld', Hworld.
    split; [reflexivity |].
    split; [by rewrite Body_Write, !Body_updHeader |].
    by rewrite Header_Write, !Header_updHeader, Request_Id_kept,
       Request_Id_set.
Qed.

(** ** The two middlewares of the package together *)

(** X6: [AccessTokenHandler] around itself is [AccessTokenHandler]: the
    second pass reads the same header, finds the same token and stores it
    over the one the first pass stored. *)
Theorem AccessTokenHandler_idempotent
        (h : Handler) (w : http.ResponseWriter) (r : Request) (st : State) :
  AccessTokenHandler (AccessTokenHandler h) w r st
  = AccessTokenHandler h w r st.
Proof.
  rewrite (AccessTokenHandler_bearerToken (AccessTokenHandler h)).
  rewrite (AccessTokenHandler_bearerToken h w r).
  destruct (String.eqb (bearerToken r) "") eqn:Htok; [reflexivity |].
  rewrite AccessTokenHandler_bearerToken.
  change (bearerToken (withAccessToken r (bearerToken r)))
    with (bearerToken r).
  by rewrite Htok.
Qed.

(** X7: for a request that passes the token gate the order of
    [AccessTokenHandler] and [JSONContentTypeHandler] in the chain makes no
    difference: the next handler gets the same writer, request and state
    either way. *)
Theorem middleware_order_irrelevant_on_pass
        (h : Handler) (w : http.ResponseWriter) (r : Request) (st : State) :
  bearerToken r <> "" ->
  AccessTokenHandler (JSONContentTypeHandler h) w r st
  = JSONContentTypeHandler (AccessTokenHandler h) w r st.
Proof.
  intros Htok. apply eqb_empty_false in Htok.
  unfold JSONContentTypeHandler at 2.
  rewrite !AccessTokenHandler_bearerToken, Htok.
  reflexivity.
Qed.

(** ** More on the content-type middleware *)

Lemma iter_updHeader_Header (n : nat) (f : http.Header -> http.Header)
      (w : http.ResponseWriter) :
  http.Header_ (Nat.iter n (http.updHeader f) w)
  = Nat.iter n f (http.Header_ w).
Proof.
  induction n as [|n IH]; simpl; [done |].
  by rewrite Header_updHeader, IH.
Qed.

Lemma iter_Add_values (n : nat) (key value : string) (h : http.Header) :
  http.CanonicalMIMEHeaderKey key = key ->
  Nat.iter (S n) (http.Add key value) h !! key
  = Some (http.values h key ++ replicate (S n) value).
Proof.
  intros Hkey. induction n as [|n IH].
  - simpl. unfold http.Add. rewrite Hkey. apply lookup_insert_eq.
  - change (Nat.iter (S (S n)) (http.Add key value) h)
      with (http.Add key value (Nat.iter (S n) (http.Add key value) h)).
    unfold http.Add at 1. rewrite Hkey, lookup_insert_eq.
    unfold http.values at 1. rewrite IH. simpl.
    rewrite <- app_assoc. do 2 f_equal.
    symmetry. exact (replicate_S_end (S n) value).
Qed.

(** X8: [JSONContentTypeHandler] is not idempotent. In a chain that holds
    it [n+1] times the next handler gets a writer whose header
    [Content-Type] has the values it had before followed by [n+1] times
    [application/json]. *)
Theorem JSONContentTypeHandler_repeated
        (n : nat) (h : Handler) (w : http.ResponseWriter) (r : Request)
        (st : State) :
  let add := http.updHeader (http.Add "Content-Type" "application/json") in
  Nat.iter (S n) JSONContentTypeHandler h w r st
  = h (Nat.iter (S n) add w) r st
  /\ http.Header_ (Nat.iter (S n) add w) !! "Content-Type"
     = Some (http.values (http.Header_ w) "Content-Type"
             ++ replicate (S n) "application/json").
Proof.
  intros add. split.
  - revert w. induction n as [|n IH]; intros w; [reflexivity |].
    change (Nat.iter (S (S n)) JSONContentTypeHandler h w r st)
      with (Nat.iter (S n) JSONContentTypeHandler h (add w) r st).
    rewrite IH.
    change (add w) with (Nat.iter 1 add w).
    by rewrite <- Nat.iter_add, Nat.add_comm.
  - unfold add. rewrite iter_updHeader_Header.
    by apply iter_Add_values.
Qed.

(** X9: [JSONContentTypeHandler] adds its value, it does not set it. What
    [Header.Get] returns for [Content-Type] behind it is the first value the
    header had before, and [application/json] only when it had none. *)
Theorem JSONContentTypeHandler_Get
        (h : Handler) (w : http.ResponseWriter) (r : Request) (st : State) :
  let w1 := http.updHeader (http.Add "Content-Type" "application/json") w in
  JSONContentTypeHandler h w r st = h w1 r st
  /\ http.Get "Content-Type" (http.Header_ w1)
     = match http.values (http.Header_ w) "Content-Type" with
       | v :: _ => v
       | [] => "application/json"
       end.
Proof.
  intros w1. split; [reflexivity |].
  unfold w1, http.Get. rewrite Header_updHeader.
  unfold http.Add. rewrite canonical_Content_Type.
  unfold http.values at 1. rewrite lookup_insert_eq. simpl.
  by destruct (http.values (http.Header_ w) "Content-Type").
Qed.

(** ** More on the envelope builder and the classifier *)

(** X10: of the two results of [NewStandardResponse] exactly one is nil: an
    envelope comes without an error and an error without an envelope. *)
Theorem NewStandardResponse_exclusive (r : Request) (d : Data) :
  ((NewStandardResponse r d).1 = None <-> (NewStandardResponse r d).2 <> None)
  /\ ((NewStandardResponse r d).1 <> None <-> (NewStandardResponse r d).2 = None).
Proof.
  unfold NewStandardResponse.
  destruct (hlog_IDFromRequest r); simpl; split; split; congruence.
Qed.

(** X11: [DecoderErr] returns nil for nil only: no error of the decoder is
    lost on the way. *)
Theorem DecoderErr_nil_iff (err : option error) :
  DecoderErr err = None <-> err = None.
Proof.
  split; [| by intros ->].
  destruct err as [e|]; [| done].
  by destruct e.
Qed.

(** ** Requests built with [Header.Add] *)

Lemma bearer_value (t : string) :
  auth.BearerTokenType +:+ " " +:+ t = "Bearer " +:+ t.
Proof. reflexivity. Qed.

(** X12: the header the tests build is read back. When a request has no
    [Authorization] value yet and
    [Header.Add(key, auth.BearerTokenType+" "+t)] is called on its header with
    a key that is [Authorization] in any spelling the canonical form covers,
    then for a non-empty [t] the handler passes the request on and the token
    it stores is [t]. *)
Theorem bearer_header_round_trip
        (h : Handler) (w : http.ResponseWriter) (r : Request) (st : State)
        (key t : string) (hdr : http.Header) :
  http.CanonicalMIMEHeaderKey key = "Authorization" ->
  http.values hdr "Authorization" = [] ->
  t <> "" ->
  let r' :=
    withHeader r (http.Add key (auth.BearerTokenType +:+ " " +:+ t) hdr) in
  bearerToken r' = t
  /\ AccessTokenHandler h w r' st = h w (withAccessToken r' t) st.
Proof.
  intros Hkey Hnone Hne r'.
  assert (Htok : bearerToken r' = t).
  { unfold r', bearerToken, withHeader, http.Add. cbn [r_Header].
    rewrite Hkey, Hnone, lookup_insert_eq. simpl.
    rewrite bearer_value. apply TrimPrefix_app. }
  split; [exact Htok |].
  by rewrite AccessTokenHandler_bearerToken, Htok, (eqb_empty_false _ Hne).
Qed.

(** X13: [Header.Add] on a request that has an [Authorization] value
    already appends the new value behind it, and the handler goes on reading
    the old first value: the request is rejected or passed on as before, with
    the token as before. *)
Theorem added_Authorization_value_ignored
        (h : Handler) (w : http.ResponseWriter) (r : Request) (st : State)
        (key v v0 : string) (rest : list string) (hdr : http.Header) :
  http.CanonicalMIMEHeaderKey key = "Authorization" ->
  hdr !! "Authorization" = Some (v0 :: rest) ->
  let r1 := withHeader r hdr in
  let r2 := withHeader r (http.Add key v hdr) in
  r_Header r2 !! "Authorization" = Some (v0 :: rest ++ [v])
  /\ bearerToken r2 = bearerToken r1
  /\ AccessTokenHandler h w r2 st
     = if String.eqb (bearerToken r1) "" then rejectEmptyToken w r1 st
       else h w (withAccessToken r2 (bearerToken r1)) st.
Proof.
  intros Hkey Hhdr r1 r2.
  assert (Hadd : r_Header r2 !! "Authorization" = Some (v0 :: rest ++ [v])).
  { unfold r2, withHeader, http.Add, http.values. cbn [r_Header].
    by rewrite Hkey, Hhdr, lookup_insert_eq. }
  assert (Htok : bearerToken r2 = bearerToken r1).
  { unfold bearerToken. rewrite Hadd. unfold r1, withHeader. cbn [r_Header].
    by rewrite Hhdr. }
  split; [exact Hadd |]. split; [exact Htok |].
  rewrite AccessTokenHandler_bearerToken, Htok.
  by destruct (String.eqb (bearerToken r1) "").
Qed.

(** ** A rejected request in the logging chain *)

(** X14: a request stopped at the token gate still gets its identifier. In
    the logging chain followed by [AccessTokenHandler], a request without a
    token is answered without the handler behind the gate playing any part;
    the response carries the header [Request-Id] with the identifier of the
    request, its body is as it was, and the world behind the gate is
    untouched. *)
Theorem rejected_request_keeps_id
        (lg : zerolog.Logger) (h : Handler) (w : http.ResponseWriter)
        (r : Request) (st : State) :
  bearerToken r = "" ->
  let chain :=
    Append (LoggerHandlerChain lg (alice_New [])) [AccessTokenHandler] in
  let id := default (xid_New (drawn st)) (hlog_IDFromRequest r) in
  (forall h' : Handler, Then chain h' w r st = Then chain h w r st)
  /\ http.Header_ (Then chain h w r st).1 !! "Request-Id" = Some [ID_String id]
  /\ http.Body (Then chain h w r st).1 = http.Body w
  /\ world (Then chain h w r st).2 = world st.
Proof.
  intros Htok chain id.
  assert (Hrun : forall g : Handler,
             Then chain g w r st
             = afterAccess
                 (WithContext r (Logger_WithContext lg (r_ctx r) st).1)
                 (now st)
                 (rejectEmptyToken
                    (http.basicWriter
                       (http.updHeader
                          (http.Set_ "Request-Id" (ID_String id)) w)
                       false 0 0)
                    (WithContext
                       (WithContext r (Logger_WithContext lg (r_ctx r) st).1)
                       (hlog_CtxWithID
                          (Logger_WithContext lg (r_ctx r) st).1 id))
                    (prepared
                       (WithContext r (Logger_WithContext lg (r_ctx r) st).1)
                       (Logger_WithContext lg (r_ctx r) st).2))).
  { intros g.
    change (Then chain g)
      with (Then (LoggerHandlerChain lg (alice_New []))
                 (AccessTokenHandler g)).
    rewrite LoggerHandlerChain_run, AccessTokenHandler_bearerToken.
    change (bearerToken (WithContext (WithContext r _) _))
      with (bearerToken r).
    by rewrite Htok. }
  split; [intros h'; by rewrite !Hrun |].
  rewrite (Hrun h).
  destruct (Logger_WithContext_frame lg (r_ctx r) st) as (_ & Hworld & _).
  destruct (prepared_frame
              (WithContext r (Logger_WithContext lg (r_ctx r) st).1)
              (Logger_WithContext lg (r_ctx r) st).2)
    as (_ & _ & Hworld' & _).
  cbn [afterAccess rejectEmptyToken errs_HTTPErrorResponse errs.KindOf
       errs.E fold_left errs.setArg fst snd http.WriteHeader unwrap].
  split; [by rewrite Header_WriteHeader, Header_updHeader, Request_Id_set |].
  split; [by rewrite Body_WriteHeader, Body_updHeader |].
  cbn. congruence.
Qed.

End more.

(** * The theorems at concrete requests *)

(** A request without the header: 401, empty body, the probe never ran. *)
Lemma AccessTokenHandler_unauthenticated_witness :
  r_Header (exampleRequest ∅) !! "Authorization" = None
  /\ http.Code
       (AccessTokenHandler probe http.NewRecorder (exampleRequest ∅)
                           exampleState).1 = Some 401
  /\ http.Body
       (AccessTokenHandler probe http.NewRecorder (exampleRequest ∅)
                           exampleState).1 = ""
  /\ world
       (AccessTokenHandler probe http.NewRecorder (exampleRequest ∅)
                           exampleState).2 = [].
Proof.
  assert (Hhdr : r_Header (exampleRequest ∅) !! "Authorization" = None)
    by reflexivity.
  split; [exact Hhdr |].
  destruct (AccessTokenHandler_unauthenticated
              probe http.NewRecorder (exampleRequest ∅) exampleState
              (or_introl Hhdr)) as (_ & Hbody & Hcode & Hworld & _).
  split; [exact (Hcode eq_refl) |].
  split; [exact Hbody | exact Hworld].
Defined.

(** [Authorization: Basic xyz] passes the gate: the probe runs, no status is
    written, and the token the probe finds is the whole header value. *)
Lemma AccessTokenHandler_scheme_counterexample :
  strings.HasPrefix "Basic xyz" "Bearer " = false
  /\ AccessTokenHandler probe http.NewRecorder
       (exampleRequest {["Authorization" := ["Basic xyz"]]}) exampleState
     = (http.NewRecorder,
        @set_world exampleExt
          [Some (auth.mkAccessToken "Basic xyz" "Bearer")] exampleState).
Proof. split; vm_compute; reflexivity. Qed.

Lemma AccessTokenHandler_scheme_not_checked_witness :
  AccessTokenHandler probe http.NewRecorder
    (exampleRequest {["Authorization" := ["Basic xyz"]]}) exampleState
  = probe http.NewRecorder
      (withAccessToken (exampleRequest {["Authorization" := ["Basic xyz"]]})
                       "Basic xyz")
      exampleState.
Proof.
  apply (AccessTokenHandler_scheme_not_checked
           probe http.NewRecorder
           (exampleRequest {["Authorization" := ["Basic xyz"]]}) exampleState
           "Basic xyz" []).
  - vm_compute; reflexivity.
  - vm_compute; reflexivity.
  - discriminate.
Defined.

(** The header of the package's tests: the token is [abc123def1]. *)
Lemma AccessTokenHandler_token_stored_witness :
  AccessTokenHandler probe http.NewRecorder
    (exampleRequest {["Authorization" := ["Bearer abc123def1"]]}) exampleState
  = probe http.NewRecorder
      (withAccessToken
         (exampleRequest {["Authorization" := ["Bearer abc123def1"]]})
         (strings.TrimPrefix "Bearer abc123def1" "Bearer "))
      exampleState.
Proof.
  apply (AccessTokenHandler_token_stored
           probe http.NewRecorder
           (exampleRequest {["Authorization" := ["Bearer abc123def1"]]})
           exampleState "Bearer abc123def1" []).
  - vm_compute; reflexivity.
  - vm_compute; discriminate.
Defined.

(** Two values, the first one without a token: rejected, whatever follows. *)
Lemma AccessTokenHandler_first_value_only_witness :
  let r := exampleRequest {["Authorization" := ["Bearer "; "Bearer abc"]]} in
  let r' := withHeader r (<["Authorization" := ["Bearer "; "Bearer xyz"]]>
                            (r_Header r)) in
  (strings.TrimPrefix "Bearer " "Bearer " = ""
   /\ AccessTokenHandler probe http.NewRecorder r exampleState
      = rejectEmptyToken http.NewRecorder r exampleState
   /\ AccessTokenHandler probe http.NewRecorder r' exampleState
      = rejectEmptyToken http.NewRecorder r exampleState)
  \/ (strings.TrimPrefix "Bearer " "Bearer " <> ""
      /\ AccessTokenHandler probe http.NewRecorder r exampleState
         = probe http.NewRecorder
             (withAccessToken r (strings.TrimPrefix "Bearer " "Bearer "))
             exampleState
      /\ AccessTokenHandler probe http.NewRecorder r' exampleState
         = probe http.NewRecorder
             (withAccessToken r' (strings.TrimPrefix "Bearer " "Bearer "))
             exampleState).
Proof.
  intros r r'.
  apply (AccessTokenHandler_first_value_only
           probe http.NewRecorder r exampleState "Bearer "
           ["Bearer abc"] ["Bearer xyz"]).
  vm_compute; reflexivity.
Defined.

(** A request whose context holds the identifier [c0]. *)
Lemma NewStandardResponse_envelope_witness :
  exists sr : StandardResponse string,
    @NewStandardResponse exampleExt (exampleRequestWithID ∅ "c0") "payload"
    = (Some sr, None)
    /\ Path sr = "/api/v1/movies"
    /\ RequestID sr = "c0"
    /\ Data_ sr = "payload".
Proof.
  apply (@NewStandardResponse_envelope exampleExt
           (exampleRequestWithID ∅ "c0") "payload" "c0").
  reflexivity.
Defined.

(** A syntax error of the JSON decoder is wrapped as it is. *)
Lemma DecoderErr_reference_witness :
  exists c,
    DecoderErr (Some (json_SyntaxError "invalid character" 1)) = Some c
    /\ (exists k o, c = errs_Error k o)
    /\ errs.Cause c = Some (json_SyntaxError "invalid character" 1)
    /\ errs.KindOf (Some c) = Internal
    /\ Error_ c = "invalid character".
Proof.
  apply (proj2 (proj2 (proj2 DecoderErr_reference))); discriminate.
Defined.

(** The request of the package's tests through the whole chain: the header,
    the access line and the body carry the identifier drawn, [a0]. *)
Example request_id_consistent_example :
  let res :=
    Then (apiChain exampleLogger) (@envelopeHandler exampleExt "payload")
         http.NewRecorder
         (exampleRequest {["Authorization" := ["Bearer abc123def1"]]})
         exampleState in
  http.Code res.1 = Some 200
  /\ http.Header_ res.1 !! "Request-Id" = Some ["a0"]
  /\ http.Header_ res.1 !! "Content-Type" = Some ["application/json"]
  /\ http.Body res.1 = "/api/v1/movies a0 payload"
  /\ zerolog.field "request_id" <$> output res.2
     = [Some (zerolog.FStr "a0")]
  /\ zerolog.field "status" <$> output res.2 = [Some (zerolog.FInt 200)].
Proof. vm_compute. by repeat split. Qed.

(** The same request without the header: 401, no body, and both lines of the
    log, the error and the access line, carry the identifier. *)
Example request_id_consistent_unauthenticated :
  let res :=
    Then (apiChain exampleLogger) (@envelopeHandler exampleExt "payload")
         http.NewRecorder
         (exampleRequest ∅) exampleState in
  http.Code res.1 = Some 401
  /\ http.Header_ res.1 !! "Request-Id" = Some ["a0"]
  /\ http.Body res.1 = ""
  /\ zerolog.field "request_id" <$> output res.2
     = [Some (zerolog.FStr "a0"); Some (zerolog.FStr "a0")]
  /\ zerolog.field "status" <$> output res.2
     = [None; Some (zerolog.FInt 401)].
Proof. vm_compute. by repeat split. Qed.

(** * The further properties at concrete requests *)

(** The request of the tests with a browser's headers: all four fields. *)
Lemma LoggerHandlerChain_logger_fields_witness :
  exists (w' : http.ResponseWriter) (r' r0 : @Request exampleExt)
         (st' : @State exampleExt),
    (forall next : Handler,
        Then (LoggerHandlerChain exampleLogger (alice_New [])) next
             http.NewRecorder
             (exampleRequest {["User-Agent" := ["curl/8"];
                               "Referer" := ["http://example.com/"]]})
             exampleState
        = afterAccess r0 0 (next w' r' st'))
    /\ deref st' (hlog_FromRequest r')
       = zerolog.mkLogger
           zerolog.InfoLevel
           [("remote_ip", zerolog.FStr "192.0.2.1:1234");
            ("user_agent", zerolog.FStr "curl/8");
            ("referer", zerolog.FStr "http://example.com/");
            ("request_id", zerolog.FStr "a0")].
Proof.
  assert (Hstored : ctx_logger
                      (r_ctx (exampleRequest
                                {["User-Agent" := ["curl/8"];
                                  "Referer" := ["http://example.com/"]]}))
                    <> None
                    \/ zerolog.level exampleLogger <> zerolog.Disabled)
    by (right; discriminate).
  pose proof (LoggerHandlerChain_logger_fields
                exampleLogger http.NewRecorder
                (exampleRequest {["User-Agent" := ["curl/8"];
                                  "Referer" := ["http://example.com/"]]})
                exampleState Hstored) as H.
  cbv zeta in H.
  destruct H as (w' & r' & r0 & st' & Hrun & Hlog).
  exists w', r', r0, st'. split; [exact Hrun |].
  rewrite Hlog. vm_compute. reflexivity.
Defined.


Lemma middleware_order_irrelevant_on_pass_witness :
  AccessTokenHandler (JSONContentTypeHandler probe) http.NewRecorder
    (exampleRequest {["Authorization" := ["Bearer abc123def1"]]}) exampleState
  = JSONContentTypeHandler (AccessTokenHandler probe) http.NewRecorder
      (exampleRequest {["Authorization" := ["Bearer abc123def1"]]})
      exampleState.
Proof.
  apply (middleware_order_irrelevant_on_pass
           probe http.NewRecorder
           (exampleRequest {["Authorization" := ["Bearer abc123def1"]]})
           exampleState).
  vm_compute. discriminate.
Defined.

(** The header as the tests add it, under a key in lower case. *)
Lemma bearer_header_round_trip_witness :
  let r' :=
    withHeader (exampleRequest ∅)
      (http.Add "authorization"
                (auth.BearerTokenType +:+ " " +:+ "abc123def1") ∅) in
  bearerToken r' = "abc123def1"
  /\ AccessTokenHandler probe http.NewRecorder r' exampleState
     = probe http.NewRecorder (withAccessToken r' "abc123def1") exampleState.
Proof.
  apply (bearer_header_round_trip
           probe http.NewRecorder (exampleRequest ∅) exampleState
           "authorization" "abc123def1" ∅).
  - vm_compute; reflexivity.
  - reflexivity.
  - discriminate.
Defined.

(** A second credential added behind an empty first value changes nothing. *)
Lemma added_Authorization_value_ignored_witness :
  let hdr : http.Header := {["Authorization" := ["Bearer "]]} in
  let r1 := withHeader (exampleRequest ∅) hdr in
  let r2 :=
    withHeader (exampleRequest ∅)
               (http.Add "Authorization" "Bearer abc123def1" hdr) in
  r_Header r2 !! "Authorization" = Some ("Bearer " :: [] ++ ["Bearer abc123def1"])
  /\ bearerToken r2 = bearerToken r1
  /\ AccessTokenHandler probe http.NewRecorder r2 exampleState
     = if String.eqb (bearerToken r1) ""
       then rejectEmptyToken http.NewRecorder r1 exampleState
       else probe http.NewRecorder (withAccessToken r2 (bearerToken r1))
                  exampleState.
Proof.
  intros hdr r1 r2.
  apply (added_Authorization_value_ignored
           probe http.NewRecorder (exampleRequest ∅) exampleState
           "Authorization" "Bearer abc123def1" "Bearer " [] hdr).
  - vm_compute; reflexivity.
  - vm_compute; reflexivity.
Defined.

(** The request of the tests through the chain of the tests: the variable
    [requestID] ends up holding the identifier of the body and [t.Fatal] was
    not called. *)
Example requestIDMiddleware_example :
  let res :=
    Then (@testChain testExt exampleLogger
            (fun s wd => (s, wd.2))
            (fun msg wd => (wd.1, wd.2 ++ [msg])))
         (@envelopeHandler testExt "payload") http.NewRecorder
         (@mkRequest testExt "POST"
            (mkURL "http" "example.com" "/api/v1/movies" "" "")
            {["Authorization" := ["Bearer abc123def1"]]} "192.0.2.1:1234"
            background)
         (@mkState testExt [] [] 0%nat 0 ("", [])) in
  world res.2 = ("a0", [])
  /\ http.Body res.1 = "/api/v1/movies a0 payload"
  /\ http.Code res.1 = Some 200.
Proof. vm_compute. by repeat split. Qed.

Lemma rejected_request_keeps_id_witness :
  let chain :=
    Append (LoggerHandlerChain exampleLogger (alice_New []))
           [AccessTokenHandler] in
  (forall h' : Handler,
      Then chain h' http.NewRecorder (exampleRequest ∅) exampleState
      = Then chain probe http.NewRecorder (exampleRequest ∅) exampleState)
  /\ http.Header_
       (Then chain probe http.NewRecorder (exampleRequest ∅) exampleState).1
     !! "Request-Id" = Some ["a0"]
  /\ http.Body
       (Then chain probe http.NewRecorder (exampleRequest ∅) exampleState).1
     = ""
  /\ world
       (Then chain probe http.NewRecorder (exampleRequest ∅) exampleState).2
     = [].
Proof.
  apply (rejected_request_keeps_id
           exampleLogger probe http.NewRecorder (exampleRequest ∅)
           exampleState).
  reflexivity.
Defined.
